(** * video/out/d3d11/context.c: the D3D11 presentation context of mpv

    A shallow embedding of the vsync-timing estimator ([d3d11_get_vsync]),
    the clock conversion ([qpc_to_us]), the present call
    ([d3d11_swap_buffers]), the backbuffer handling ([resize],
    [d3d11_start_frame]) and the adapter-option validator
    ([d3d11_validate_adapter]).

    C integers are mathematical integers ([Z]) with the wrap-around of
    their C type written out at every operation that can leave the range:
    [unsigned]/[UINT] is 32 bits, [int] is 32 bits two's complement,
    [int64_t]/[LARGE_INTEGER.QuadPart] is 64 bits two's complement.
    Calls into the platform (DXGI, QueryPerformanceCounter, mp_time_us)
    are inputs of the functions that make them. *)

From Stdlib Require Import ZArith Lia Bool List String Ascii.
Import ListNotations.

Local Open Scope Z_scope.

(** ** Machine integers *)

Module CInt.

Definition UINT_MOD : Z := 2 ^ 32.
Definition INT_MIN : Z := - 2 ^ 31.
Definition INT_MAX : Z := 2 ^ 31 - 1.
Definition INT64_MOD : Z := 2 ^ 64.
Definition INT64_MIN : Z := - 2 ^ 63.
Definition INT64_MAX : Z := 2 ^ 63 - 1.

(** Conversion to [unsigned]: reduction modulo 2^32. *)
Definition to_unsigned (z : Z) : Z := z mod UINT_MOD.

(** Conversion to [int]: the two's-complement value of the low 32 bits. *)
Definition to_int (z : Z) : Z := (z + 2 ^ 31) mod UINT_MOD - 2 ^ 31.

(** Conversion to [int64_t]: the two's-complement value of the low 64 bits. *)
Definition to_int64 (z : Z) : Z := (z + 2 ^ 63) mod INT64_MOD - 2 ^ 63.

Definition is_unsigned (z : Z) : Prop := 0 <= z < UINT_MOD.
Definition is_int64 (z : Z) : Prop := INT64_MIN <= z <= INT64_MAX.

Definition in_int64 (z : Z) : bool := (INT64_MIN <=? z) && (z <=? INT64_MAX).

(** C truth value of an integer used as a condition. *)
Definition nonzero (z : Z) : bool := negb (z =? 0).

(** Checked 64-bit signed arithmetic: [None] is an operation whose
    mathematical result does not fit [int64_t] (or a division by zero),
    which C leaves undefined. *)
Definition checked (z : Z) : option Z := if in_int64 z then Some z else None.
Definition add64 (a b : Z) : option Z := checked (a + b).
Definition mul64 (a b : Z) : option Z := checked (a * b).
Definition div64 (a b : Z) : option Z :=
  if b =? 0 then None else checked (Z.quot a b).
Definition rem64 (a b : Z) : option Z :=
  if b =? 0 then None
  else if (a =? INT64_MIN) && (b =? -1) then None
  else Some (Z.rem a b).

Definition bind {A B : Type} (x : option A) (f : A -> option B) : option B :=
  match x with
  | Some a => f a
  | None => None
  end.

End CInt.

Import CInt.

Notation "x <- c1 ;; c2" := (bind c1 (fun x => c2))
  (at level 61, c1 at next level, right associativity).

(** ** HRESULT

    [HRESULT] is a signed 32-bit status; the platform headers give
    [FAILED(hr)] as [hr < 0] and
    [DXGI_ERROR_FRAME_STATISTICS_DISJOINT] as the status 0x887A000B,
    whose severity bit is set. *)

Definition HRESULT := Z.

Definition S_OK : HRESULT := 0.

Definition DXGI_ERROR_FRAME_STATISTICS_DISJOINT : HRESULT :=
  to_int 0x887A000B.

Definition FAILED (hr : HRESULT) : bool := hr <? 0.

(** ** Data *)

(** [struct d3d11_opts]. *)
Record d3d11_opts := {
  feature_level : Z;
  warp : Z;
  flip : Z;
  sync_interval : Z;
  adapter_name : option string;
  output_format : Z
}.

(** A [struct ra_tex *]: [None] is the null pointer. *)
Definition ra_tex := nat.

(** [struct priv]; the device and swapchain pointers are left to the
    platform. *)
Record priv := {
  opts : d3d11_opts;
  backbuffer : option ra_tex;
  perf_freq : Z;
  last_sync_refresh_count : Z;
  last_sync_qpc_time : Z;
  vsync_duration_qpc : Z;
  last_submit_qpc : Z
}.

(** [DXGI_FRAME_STATISTICS], as filled by
    [IDXGISwapChain::GetFrameStatistics]. *)
Record DXGI_FRAME_STATISTICS := {
  PresentCount : Z;
  PresentRefreshCount : Z;
  SyncRefreshCount : Z;
  SyncQPCTime : Z;
  SyncGPUTime : Z
}.

(** [struct vo_vsync_info]: the record the caller hands in and reads back. *)
Record vo_vsync_info := {
  last_queue_display_time : Z;
  vsync_duration : Z;
  skipped_vsyncs : Z
}.

(** What the platform answers during one call of [d3d11_get_vsync]:
    the status and value of [GetLastPresentCount], the status and value
    of [GetFrameStatistics], the wall clock [mp_time_us()] and the
    counter read by [qpc_us_now]. *)
Record vsync_query := {
  hr_last_present_count : HRESULT;
  submit_count : Z;
  hr_frame_statistics : HRESULT;
  stats : DXGI_FRAME_STATISTICS;
  mp_time_us : Z;
  perf_count_now : Z
}.

(** Field updates of [struct priv]. *)
Definition set_backbuffer (p : priv) (v : option ra_tex) : priv :=
  {| opts := opts p; backbuffer := v; perf_freq := perf_freq p;
     last_sync_refresh_count := last_sync_refresh_count p;
     last_sync_qpc_time := last_sync_qpc_time p;
     vsync_duration_qpc := vsync_duration_qpc p;
     last_submit_qpc := last_submit_qpc p |}.

Definition set_last_sync_refresh_count (p : priv) (v : Z) : priv :=
  {| opts := opts p; backbuffer := backbuffer p; perf_freq := perf_freq p;
     last_sync_refresh_count := v;
     last_sync_qpc_time := last_sync_qpc_time p;
     vsync_duration_qpc := vsync_duration_qpc p;
     last_submit_qpc := last_submit_qpc p |}.

Definition set_last_sync_qpc_time (p : priv) (v : Z) : priv :=
  {| opts := opts p; backbuffer := backbuffer p; perf_freq := perf_freq p;
     last_sync_refresh_count := last_sync_refresh_count p;
     last_sync_qpc_time := v;
     vsync_duration_qpc := vsync_duration_qpc p;
     last_submit_qpc := last_submit_qpc p |}.

Definition set_vsync_duration_qpc (p : priv) (v : Z) : priv :=
  {| opts := opts p; backbuffer := backbuffer p; perf_freq := perf_freq p;
     last_sync_refresh_count := last_sync_refresh_count p;
     last_sync_qpc_time := last_sync_qpc_time p;
     vsync_duration_qpc := v;
     last_submit_qpc := last_submit_qpc p |}.

Definition set_last_submit_qpc (p : priv) (v : Z) : priv :=
  {| opts := opts p; backbuffer := backbuffer p; perf_freq := perf_freq p;
     last_sync_refresh_count := last_sync_refresh_count p;
     last_sync_qpc_time := last_sync_qpc_time p;
     vsync_duration_qpc := vsync_duration_qpc p;
     last_submit_qpc := v |}.

(** Field updates of [struct vo_vsync_info]. *)
Definition set_skipped_vsyncs (i : vo_vsync_info) (v : Z) : vo_vsync_info :=
  {| last_queue_display_time := last_queue_display_time i;
     vsync_duration := vsync_duration i;
     skipped_vsyncs := v |}.

Definition set_vsync_duration (i : vo_vsync_info) (v : Z) : vo_vsync_info :=
  {| last_queue_display_time := last_queue_display_time i;
     vsync_duration := v;
     skipped_vsyncs := skipped_vsyncs i |}.

Definition set_last_queue_display_time (i : vo_vsync_info) (v : Z)
  : vo_vsync_info :=
  {| last_queue_display_time := v;
     vsync_duration := vsync_duration i;
     skipped_vsyncs := skipped_vsyncs i |}.

(** ** Clock conversion *)

(** [qpc_to_us]: [qpc / perf_freq * 1000000 + qpc % perf_freq * 1000000 /
    perf_freq] in [int64_t], [/] and [%] truncating toward zero. *)
Definition qpc_to_us (p : priv) (qpc : Z) : Z :=
  to_int64
    (to_int64 (to_int64 (Z.quot qpc (perf_freq p)) * 1000000) +
     to_int64
       (Z.quot (to_int64 (Z.rem qpc (perf_freq p) * 1000000)) (perf_freq p))).

(** The same expression with every operation checked against the range of
    [int64_t]. *)
Definition qpc_to_us_checked (p : priv) (qpc : Z) : option Z :=
  q <- div64 qpc (perf_freq p) ;;
  whole <- mul64 q 1000000 ;;
  r <- rem64 qpc (perf_freq p) ;;
  scaled <- mul64 r 1000000 ;;
  part <- div64 scaled (perf_freq p) ;;
  add64 whole part.

(** [qpc_us_now]: the counter just read, in microseconds. *)
Definition qpc_us_now (p : priv) (perf_count : Z) : Z :=
  qpc_to_us p perf_count.

(** ** Present *)

(** [d3d11_swap_buffers]: stores the counter read by
    [QueryPerformanceCounter], then presents. *)
Definition d3d11_swap_buffers (p : priv) (perf_count : Z) : priv :=
  set_last_submit_qpc p perf_count.

(** ** Vsync estimator *)

(** [src_passed]: the number of physical vsyncs since the last call, taken
    only when both the new and the stored counter are non-zero. *)
Definition src_passed (p : priv) (st : DXGI_FRAME_STATISTICS) : Z :=
  if nonzero (SyncRefreshCount st) && nonzero (last_sync_refresh_count p)
  then to_unsigned (SyncRefreshCount st - last_sync_refresh_count p)
  else 0.

(** [sqt_passed]: the counter ticks between those vsyncs; the 64-bit
    difference is stored in an [unsigned]. *)
Definition sqt_passed (p : priv) (st : DXGI_FRAME_STATISTICS) : Z :=
  if nonzero (SyncQPCTime st) && nonzero (last_sync_qpc_time p)
  then to_unsigned (to_int64 (SyncQPCTime st - last_sync_qpc_time p))
  else 0.

(** [expected_sync_pc]: the present count guessed for [SyncRefreshCount]. *)
Definition expected_sync_pc (st : DXGI_FRAME_STATISTICS) : Z :=
  to_unsigned
    (PresentCount st +
     to_unsigned (SyncRefreshCount st - PresentRefreshCount st)).

(** [queued_frames]: an [int] holding [submit_count - expected_sync_pc]. *)
Definition queued_frames (submit : Z) (st : DXGI_FRAME_STATISTICS) : Z :=
  to_int (to_unsigned (submit - expected_sync_pc st)).

(** [last_queue_display_time_qpc]: the guessed timestamp of the last
    submitted frame, in counter ticks. *)
Definition last_queue_display_time_qpc
    (p : priv) (submit : Z) (st : DXGI_FRAME_STATISTICS) : Z :=
  to_int64
    (SyncQPCTime st +
     to_int64 (queued_frames submit st * vsync_duration_qpc p)).

(** The state a reported disjoint timeline leaves. *)
Definition forget_last_sync (p : priv) : priv :=
  set_last_sync_qpc_time (set_last_sync_refresh_count p 0) 0.

(** [d3d11_get_vsync]: the private state and the caller's record go in,
    both come back. *)
Definition d3d11_get_vsync (p : priv) (q : vsync_query) (info : vo_vsync_info)
  : priv * vo_vsync_info :=
  if negb (sync_interval (opts p) =? 1) then (p, info) else
  if FAILED (hr_last_present_count q) then (p, info) else
  let p :=
    if hr_frame_statistics q =? DXGI_ERROR_FRAME_STATISTICS_DISJOINT
    then forget_last_sync p
    else p in
  if FAILED (hr_frame_statistics q) then (p, info) else
  let st := stats q in
  let info := set_skipped_vsyncs info 0 in
  let src := src_passed p st in
  let p := set_last_sync_refresh_count p (SyncRefreshCount st) in
  let sqt := sqt_passed p st in
  let p := set_last_sync_qpc_time p (SyncQPCTime st) in
  let p :=
    if nonzero src && nonzero sqt
    then set_vsync_duration_qpc p (Z.quot sqt src)
    else p in
  let info :=
    if nonzero (vsync_duration_qpc p)
    then set_vsync_duration info (qpc_to_us p (vsync_duration_qpc p))
    else info in
  if nonzero (vsync_duration_qpc p) && nonzero (PresentCount st) &&
     nonzero (PresentRefreshCount st) && nonzero (SyncRefreshCount st) &&
     nonzero (SyncQPCTime st)
  then
    let lqdt := last_queue_display_time_qpc p (submit_count q) st in
    if lqdt >=? last_submit_qpc p
    then
      (p, set_last_queue_display_time info
            (to_int64
               (mp_time_us q +
                to_int64 (qpc_to_us p lqdt - qpc_us_now p (perf_count_now q)))))
    else (p, info)
  else (p, info).


(** The refresh counter is where it was stored, or nothing is stored. *)
Definition refresh_stays (c : Z) (p : priv) : Prop :=
  last_sync_refresh_count p = c \/ last_sync_refresh_count p = 0.


(** ** Backbuffer *)

(** [resize]: frees the backbuffer, resizes the swapchain and takes the new
    backbuffer; [hr] is the status of [ResizeBuffers], [tex] what
    [get_backbuffer] returns. *)
Definition resize (p : priv) (hr : HRESULT) (tex : option ra_tex)
  : priv * bool :=
  let p := set_backbuffer p None in
  if FAILED hr then (p, false)
  else (set_backbuffer p tex, true).

(** [d3d11_start_frame]: the framebuffer handed out, if a backbuffer is
    held. *)
Definition d3d11_start_frame (p : priv) : option ra_tex := backbuffer p.

(** [d3d11_init], as far as [struct priv] goes: zeroed, then the options
    and the counter frequency are stored. *)
Definition priv_init (o : d3d11_opts) (freq : Z) : priv :=
  {| opts := o; backbuffer := None; perf_freq := freq;
     last_sync_refresh_count := 0; last_sync_qpc_time := 0;
     vsync_duration_qpc := 0; last_submit_qpc := 0 |}.

(** The calls of this file that receive a live [struct priv];
    [CallResize] is [resize] as [d3d11_reconfig] and [d3d11_control] run
    it. *)
Inductive call :=
| CallGetVsync (q : vsync_query) (info : vo_vsync_info)
| CallSwapBuffers (perf_count : Z)
| CallResize (hr : HRESULT) (tex : option ra_tex)
| CallStartFrame
| CallSubmitFrame
| CallColorDepth.

Definition run_call (p : priv) (c : call) : priv :=
  match c with
  | CallGetVsync q info => fst (d3d11_get_vsync p q info)
  | CallSwapBuffers perf_count => d3d11_swap_buffers p perf_count
  | CallResize hr tex => fst (resize p hr tex)
  | CallStartFrame => p
  | CallSubmitFrame => p
  | CallColorDepth => p
  end.

(** ** Adapter option *)

(** A [struct bstr]: [None] is the one with a null start pointer and
    length 0, as [bstr0(NULL)] builds it. *)
Definition bstr := option string.

Definition bstr0 (s : string) : bstr := Some s.
Definition bstr0_NULL : bstr := None.

Definition bstr_text (b : bstr) : string :=
  match b with
  | Some s => s
  | None => EmptyString
  end.

(** [bstr_equals0]: equal contents. *)
Definition bstr_equals0 (b : bstr) (s : string) : bool :=
  String.eqb (bstr_text b) s.

(** Modelled from the spec: [M_OPT_EXIT] and [M_OPT_INVALID] are macros of
    options/m_option.h, which is not among the sources; the spec names them
    the distinguished show-help-and-exit status and the invalid-value
    status, both apart from 0 (accepted) and from each other. The values
    are the ones of that header. *)
Definition M_OPT_INVALID : Z := -3.
Definition M_OPT_EXIT : Z := -6.

(** What the validator does to the outside, in order: a call of
    [mp_d3d11_list_or_verify_adapters] (with the name searched and whether
    a listing was asked for), a line written with [mp_info], a line
    written with [mp_err]. *)
Inductive effect :=
| ListOrVerify (name : bstr) (want_listing : bool)
| MpInfo (text : string)
| MpErr (text : string).

Definition nl : string := String (ascii_of_nat 10) EmptyString.

Section ValidateAdapter.

(** [mp_d3d11_list_or_verify_adapters], of video/out/gpu/d3d11_helpers:
    given the name and whether a listing is wanted, whether an adapter
    matched and the listing written. *)
Variable mp_d3d11_list_or_verify_adapters : bstr -> bool -> bool * string.

(** [d3d11_validate_adapter]: the status returned and the effects, in
    order. *)
Definition d3d11_validate_adapter (param : bstr) : Z * list effect :=
  let help := bstr_equals0 param "help" in
  if bstr_equals0 param EmptyString then (0, [])
  else
    let name := if help then bstr0_NULL else param in
    let '(adapter_matched, listing) :=
      mp_d3d11_list_or_verify_adapters name help in
    let called := [ListOrVerify name help] in
    if help then
      (M_OPT_EXIT,
       called ++ [MpInfo ("Available D3D11 adapters:" ++ nl ++ listing)])
    else if negb adapter_matched then
      (M_OPT_INVALID,
       called ++
       [MpErr ("No adapter matching '" ++ bstr_text param ++ "'!" ++ nl)])
    else (0, called).

End ValidateAdapter.

(** A stand-in for the platform's enumeration, for the examples: a fixed
    list of adapter descriptions, a name matches an adapter whose
    description starts with it, the listing is one line per adapter. *)
Definition enumerate_adapters (adapters : list string)
    (name : bstr) (want_listing : bool) : bool * string :=
  (match name with
   | Some n => existsb (fun d => String.prefix n d) adapters
   | None => false
   end,
   if want_listing
   then fold_right (fun d acc => (d ++ nl ++ acc)%string) EmptyString adapters
   else EmptyString).

(** ** Concrete values used in the examples *)

(** The seconds of 100 years of 365.25 days. *)
Definition seconds_in_100_years : Z := 100 * 36525 * 864.

(** The defaults of [d3d11_conf]. *)
Definition default_opts : d3d11_opts :=
  {| feature_level := 0xc100; warp := -1; flip := 1; sync_interval := 1;
     adapter_name := None; output_format := 0 |}.

(** A counter of one tick per second, and a count it reaches only after
    far more than 100 years. *)
Definition slow_clock : priv := priv_init default_opts 1.
Definition late_ticks : Z := 2 ^ 62.

(** A counter of 10 MHz. *)
Definition clock_10MHz : priv := priv_init default_opts 10000000.

(** A record as a caller may hand it in, every field marked unset. *)
Definition unset_info : vo_vsync_info :=
  {| last_queue_display_time := -1; vsync_duration := -1;
     skipped_vsyncs := -1 |}.

(** Statistics with the given four counters. *)
Definition statistics (pc prc src sqt : Z) : DXGI_FRAME_STATISTICS :=
  {| PresentCount := pc; PresentRefreshCount := prc;
     SyncRefreshCount := src; SyncQPCTime := sqt; SyncGPUTime := 0 |}.

(** An answer of the platform with the given status of
    [GetFrameStatistics]; [GetLastPresentCount] succeeds. *)
Definition answer (hr : HRESULT) (submit : Z) (st : DXGI_FRAME_STATISTICS)
  : vsync_query :=
  {| hr_last_present_count := S_OK; submit_count := submit;
     hr_frame_statistics := hr; stats := st;
     mp_time_us := 5000000; perf_count_now := 1025000 |}.

(** An estimator at 10 MHz that has seen refresh 100 at tick 1000000,
    estimates 10000 ticks per vsync and last presented at tick 1005000. *)
Definition running : priv :=
  {| opts := default_opts; backbuffer := Some 0%nat; perf_freq := 10000000;
     last_sync_refresh_count := 100; last_sync_qpc_time := 1000000;
     vsync_duration_qpc := 10000; last_submit_qpc := 1005000 |}.

(** The same estimator configured to present every second vsync. *)
Definition running_interval_2 : priv :=
  {| opts := {| feature_level := 0xc100; warp := -1; flip := 1;
                sync_interval := 2; adapter_name := None;
                output_format := 0 |};
     backbuffer := Some 0%nat; perf_freq := 10000000;
     last_sync_refresh_count := 100; last_sync_qpc_time := 1000000;
     vsync_duration_qpc := 10000; last_submit_qpc := 1005000 |}.

(** [E_FAIL], a failure status other than the disjoint one. *)
Definition E_FAIL : HRESULT := to_int 0x80004005.


(** Two adapters of a machine. *)
Definition two_adapters : list string :=
  ["NVIDIA GeForce RTX 2080"; "Intel(R) UHD Graphics 630"]%string.

(** ** Runs of calls *)

(** Any number of calls, one after the other. *)
Definition run_calls (p : priv) (cs : list call) : priv :=
  fold_left run_call cs p.

(** The estimate is a value an [unsigned] holds. *)
Definition estimate_in_range (p : priv) : Prop :=
  0 <= vsync_duration_qpc p < UINT_MOD.

(** ** Frames and window events *)

(** [get_backbuffer], the texture it returns; [hr] is the status of
    [GetBuffer], [wrapped] what [ra_d3d11_wrap_tex] returns. *)
Definition get_backbuffer (hr : HRESULT) (wrapped : option ra_tex)
  : option ra_tex :=
  if FAILED hr then None else wrapped.

(** [d3d11_reconfig]: configures the window, then resizes. *)
Definition d3d11_reconfig (p : priv) (hr : HRESULT) (tex : option ra_tex)
  : priv * bool :=
  resize p hr tex.

Section ColorDepth.

(** [tex->params.format->component_depth[0]] of a texture. *)
Variable component_depth : ra_tex -> Z.


End ColorDepth.

Section Control.

(** The resize bit of the event mask and the error status, both of
    video/out/vo.h. *)
Variable VO_EVENT_RESIZE : Z.
Variable VO_ERROR : Z.

(** [d3d11_control]: [ret] and [events] are what [vo_w32_control] returns
    and reports, [hr] and [tex] what a resize meets. *)
Definition d3d11_control (p : priv) (ret events : Z)
    (hr : HRESULT) (tex : option ra_tex) : priv * Z :=
  if nonzero (Z.land events VO_EVENT_RESIZE)
  then
    let '(p', ok) := resize p hr tex in
    if negb ok then (p', VO_ERROR) else (p', ret)
  else (p, ret).

End Control.

(** ** Start and end of the context *)

(** [struct d3d11_device_opts], the fields [d3d11_init] fills. *)
Record d3d11_device_opts := {
  dopts_debug : bool;
  allow_warp : bool;
  force_warp : bool;
  max_feature_level : Z;
  max_frame_latency : Z;
  dopts_adapter_name : option string
}.

(** [struct d3d11_swapchain_opts], without the window handle and the
    usage flag. *)
Record d3d11_swapchain_opts := {
  scopts_width : Z;
  scopts_height : Z;
  scopts_format : Z;
  scopts_flip : Z;
  scopts_length : Z
}.

(** The calls by which the context takes and gives back what it holds, as
    they appear in the code, with what the platform answered. *)
Inductive platform_call :=
| mp_d3d11_create_present_device (dopts : d3d11_device_opts) (ok : bool)
| spirv_compiler_init (ok : bool)
| ra_d3d11_create (ok : bool)
| vo_w32_init (ok : bool)
| mp_d3d11_create_swapchain (scopts : d3d11_swapchain_opts) (ok : bool)
| IDXGISwapChain_GetBuffer (hr : HRESULT)
| ra_d3d11_wrap_tex (tex : option ra_tex)
| ID3D11Texture2D_Release
| ra_tex_free (tex : ra_tex)
| IDXGISwapChain_Release
| vo_w32_uninit
| ID3D11Device_Release
| ra_destroy.

(** [get_backbuffer], the calls it makes: the buffer obtained from
    [GetBuffer] is released on both ways to the label [done]. *)
Definition get_backbuffer_calls (hr : HRESULT) (wrapped : option ra_tex)
  : list platform_call :=
  if FAILED hr then [IDXGISwapChain_GetBuffer hr]
  else [IDXGISwapChain_GetBuffer hr; ra_d3d11_wrap_tex wrapped;
        ID3D11Texture2D_Release].

(** [struct ra_ctx], as far as this file reads and writes it; the device
    and swapchain pointers of [struct priv], which [priv] leaves out, are
    kept here as held or null. *)
Record ra_ctx := {
  ctx_debug : bool;
  swapchain_depth : Z;
  dwidth : Z;
  dheight : Z;
  ra : bool;
  ctx_priv : priv;
  device : bool;
  swapchain : bool
}.

Definition set_ra (ctx : ra_ctx) (v : bool) : ra_ctx :=
  {| ctx_debug := ctx_debug ctx; swapchain_depth := swapchain_depth ctx;
     dwidth := dwidth ctx; dheight := dheight ctx; ra := v;
     ctx_priv := ctx_priv ctx; device := device ctx;
     swapchain := swapchain ctx |}.

Definition set_ctx_priv (ctx : ra_ctx) (v : priv) : ra_ctx :=
  {| ctx_debug := ctx_debug ctx; swapchain_depth := swapchain_depth ctx;
     dwidth := dwidth ctx; dheight := dheight ctx; ra := ra ctx;
     ctx_priv := v; device := device ctx; swapchain := swapchain ctx |}.

Definition set_device (ctx : ra_ctx) (v : bool) : ra_ctx :=
  {| ctx_debug := ctx_debug ctx; swapchain_depth := swapchain_depth ctx;
     dwidth := dwidth ctx; dheight := dheight ctx; ra := ra ctx;
     ctx_priv := ctx_priv ctx; device := v; swapchain := swapchain ctx |}.

Definition set_swapchain (ctx : ra_ctx) (v : bool) : ra_ctx :=
  {| ctx_debug := ctx_debug ctx; swapchain_depth := swapchain_depth ctx;
     dwidth := dwidth ctx; dheight := dheight ctx; ra := ra ctx;
     ctx_priv := ctx_priv ctx; device := device ctx; swapchain := v |}.

(** Modelled from the spec: [ra_tex_free] (video/out/gpu/ra) and the macro
    [SAFE_RELEASE] (osdep/windows_utils.h) are not among the sources; by
    the spec the release of a resource that is not held is a no-op, and
    the pointer is null afterwards.

    [d3d11_uninit]: the context afterwards and the calls made. *)
Definition d3d11_uninit (ctx : ra_ctx) : ra_ctx * list platform_call :=
  let p := ctx_priv ctx in
  let freed :=
    if ra ctx
    then match backbuffer p with
         | Some tex => [ra_tex_free tex]
         | None => []
         end
    else [] in
  let ctx := if ra ctx then set_ctx_priv ctx (set_backbuffer p None)
             else ctx in
  let released_swapchain :=
    if swapchain ctx then [IDXGISwapChain_Release] else [] in
  let ctx := set_swapchain ctx false in
  let released_device :=
    if device ctx then [ID3D11Device_Release] else [] in
  let ctx := set_device ctx false in
  let destroyed := if ra ctx then [ra_destroy] else [] in
  (ctx,
   freed ++ released_swapchain ++ [vo_w32_uninit] ++ released_device ++
   destroyed).

(** What the platform answers during [d3d11_init]. *)
Record init_answers := {
  QueryPerformanceFrequency : Z;
  create_present_device_ok : bool;
  spirv_compiler_init_ok : bool;
  ra_d3d11_create_ok : bool;
  vo_w32_init_ok : bool;
  create_swapchain_ok : bool;
  GetBuffer_hr : HRESULT;
  wrap_tex : option ra_tex
}.

(** The label [error] of [d3d11_init]. *)
Definition init_error (ctx : ra_ctx) (calls : list platform_call)
  : ra_ctx * bool * list platform_call :=
  let '(ctx', released) := d3d11_uninit ctx in
  (ctx', false, calls ++ released).

(** [d3d11_init]: the context afterwards, the value returned and the calls
    made; a device that could not be created leaves the pointer null. *)
Definition d3d11_init (ctx : ra_ctx) (o : d3d11_opts) (a : init_answers)
  : ra_ctx * bool * list platform_call :=
  let p := priv_init o (QueryPerformanceFrequency a) in
  let ctx := set_swapchain (set_device (set_ctx_priv ctx p) false) false in
  let dopts :=
    {| dopts_debug := ctx_debug ctx;
       allow_warp := negb (warp o =? 0);
       force_warp := warp o =? 1;
       max_feature_level := feature_level o;
       max_frame_latency := swapchain_depth ctx;
       dopts_adapter_name := adapter_name o |} in
  let calls :=
    [mp_d3d11_create_present_device dopts (create_present_device_ok a)] in
  if negb (create_present_device_ok a) then init_error ctx calls else
  let ctx := set_device ctx true in
  let calls := calls ++ [spirv_compiler_init (spirv_compiler_init_ok a)] in
  if negb (spirv_compiler_init_ok a) then init_error ctx calls else
  let ctx := set_ra ctx (ra_d3d11_create_ok a) in
  let calls := calls ++ [ra_d3d11_create (ra_d3d11_create_ok a)] in
  if negb (ra ctx) then init_error ctx calls else
  let calls := calls ++ [vo_w32_init (vo_w32_init_ok a)] in
  if negb (vo_w32_init_ok a) then init_error ctx calls else
  let scopts :=
    {| scopts_width := dwidth ctx;
       scopts_height := dheight ctx;
       scopts_format := output_format o;
       scopts_flip := flip o;
       scopts_length := to_int (swapchain_depth ctx + 2) |} in
  let calls :=
    calls ++ [mp_d3d11_create_swapchain scopts (create_swapchain_ok a)] in
  if negb (create_swapchain_ok a) then init_error ctx calls else
  let ctx := set_swapchain ctx true in
  let tex := get_backbuffer (GetBuffer_hr a) (wrap_tex a) in
  let calls := calls ++ get_backbuffer_calls (GetBuffer_hr a) (wrap_tex a) in
  let ctx := set_ctx_priv ctx (set_backbuffer (ctx_priv ctx) tex) in
  match tex with
  | None => init_error ctx calls
  | Some _ => (ctx, true, calls)
  end.

(** What is held at a point of a run: the device, the rendering
    abstraction, the window, the swapchain, a buffer of the swapchain, a
    wrapped texture. *)
Record holdings := {
  holds_device : bool;
  holds_ra : bool;
  holds_window : bool;
  holds_swapchain : bool;
  holds_buffer : bool;
  holds_tex : option ra_tex
}.

Definition nothing_held : holdings :=
  {| holds_device := false; holds_ra := false; holds_window := false;
     holds_swapchain := false; holds_buffer := false; holds_tex := None |}.

(** One call seen by a leak checker. [None] is a fault: something taken
    while already held, something given back that is not held, the
    device given back while the swapchain or a texture made from it lives,
    the rendering abstraction destroyed while anything of the device
    lives. Closing the window is allowed whether or not it was opened. *)
Definition track (h : holdings) (c : platform_call) : option holdings :=
  match c with
  | mp_d3d11_create_present_device _ ok =>
      if holds_device h then None
      else Some {| holds_device := ok; holds_ra := holds_ra h;
                   holds_window := holds_window h;
                   holds_swapchain := holds_swapchain h;
                   holds_buffer := holds_buffer h;
                   holds_tex := holds_tex h |}
  | spirv_compiler_init _ => Some h
  | ra_d3d11_create ok =>
      if holds_ra h || negb (holds_device h) then None
      else Some {| holds_device := holds_device h; holds_ra := ok;
                   holds_window := holds_window h;
                   holds_swapchain := holds_swapchain h;
                   holds_buffer := holds_buffer h;
                   holds_tex := holds_tex h |}
  | vo_w32_init ok =>
      if holds_window h then None
      else Some {| holds_device := holds_device h; holds_ra := holds_ra h;
                   holds_window := ok;
                   holds_swapchain := holds_swapchain h;
                   holds_buffer := holds_buffer h;
                   holds_tex := holds_tex h |}
  | mp_d3d11_create_swapchain _ ok =>
      if holds_swapchain h || negb (holds_device h) then None
      else Some {| holds_device := holds_device h; holds_ra := holds_ra h;
                   holds_window := holds_window h;
                   holds_swapchain := ok;
                   holds_buffer := holds_buffer h;
                   holds_tex := holds_tex h |}
  | IDXGISwapChain_GetBuffer hr =>
      if holds_buffer h || negb (holds_swapchain h) then None
      else Some {| holds_device := holds_device h; holds_ra := holds_ra h;
                   holds_window := holds_window h;
                   holds_swapchain := holds_swapchain h;
                   holds_buffer := negb (FAILED hr);
                   holds_tex := holds_tex h |}
  | ra_d3d11_wrap_tex tex =>
      match holds_tex h with
      | Some _ => None
      | None =>
          if holds_buffer h && holds_ra h
          then Some {| holds_device := holds_device h;
                       holds_ra := holds_ra h;
                       holds_window := holds_window h;
                       holds_swapchain := holds_swapchain h;
                       holds_buffer := holds_buffer h;
                       holds_tex := tex |}
          else None
      end
  | ID3D11Texture2D_Release =>
      if holds_buffer h
      then Some {| holds_device := holds_device h; holds_ra := holds_ra h;
                   holds_window := holds_window h;
                   holds_swapchain := holds_swapchain h;
                   holds_buffer := false;
                   holds_tex := holds_tex h |}
      else None
  | ra_tex_free tex =>
      match holds_tex h with
      | Some held =>
          if (held =? tex)%nat
          then Some {| holds_device := holds_device h;
                       holds_ra := holds_ra h;
                       holds_window := holds_window h;
                       holds_swapchain := holds_swapchain h;
                       holds_buffer := holds_buffer h;
                       holds_tex := None |}
          else None
      | None => None
      end
  | IDXGISwapChain_Release =>
      if holds_swapchain h
      then Some {| holds_device := holds_device h; holds_ra := holds_ra h;
                   holds_window := holds_window h;
                   holds_swapchain := false;
                   holds_buffer := holds_buffer h;
                   holds_tex := holds_tex h |}
      else None
  | vo_w32_uninit =>
      Some {| holds_device := holds_device h; holds_ra := holds_ra h;
              holds_window := false;
              holds_swapchain := holds_swapchain h;
              holds_buffer := holds_buffer h;
              holds_tex := holds_tex h |}
  | ID3D11Device_Release =>
      match holds_tex h with
      | Some _ => None
      | None =>
          if holds_device h && negb (holds_swapchain h) &&
             negb (holds_buffer h)
          then Some {| holds_device := false; holds_ra := holds_ra h;
                       holds_window := holds_window h;
                       holds_swapchain := holds_swapchain h;
                       holds_buffer := holds_buffer h;
                       holds_tex := holds_tex h |}
          else None
      end
  | ra_destroy =>
      match holds_tex h with
      | Some _ => None
      | None =>
          if holds_ra h && negb (holds_device h) &&
             negb (holds_swapchain h) && negb (holds_buffer h)
          then Some {| holds_device := holds_device h; holds_ra := false;
                       holds_window := holds_window h;
                       holds_swapchain := holds_swapchain h;
                       holds_buffer := holds_buffer h;
                       holds_tex := holds_tex h |}
          else None
      end
  end.

(** A run of calls seen by the leak checker. *)
Fixpoint track_all (h : holdings) (calls : list platform_call)
  : option holdings :=
  match calls with
  | [] => Some h
  | c :: rest =>
      match track h c with
      | Some h' => track_all h' rest
      | None => None
      end
  end.

(** A context before [d3d11_init]: nothing held. *)
Definition fresh_ctx (debug : bool) (depth width height : Z) : ra_ctx :=
  {| ctx_debug := debug; swapchain_depth := depth; dwidth := width;
     dheight := height; ra := false;
     ctx_priv := priv_init default_opts 0;
     device := false; swapchain := false |}.

(** Answers with which every step of [d3d11_init] succeeds. *)
Definition all_fine : init_answers :=
  {| QueryPerformanceFrequency := 10000000;
     create_present_device_ok := true; spirv_compiler_init_ok := true;
     ra_d3d11_create_ok := true; vo_w32_init_ok := true;
     create_swapchain_ok := true; GetBuffer_hr := S_OK;
     wrap_tex := Some 4%nat |}.

(** Answers with which the swapchain cannot be created. *)
Definition no_swapchain : init_answers :=
  {| QueryPerformanceFrequency := 10000000;
     create_present_device_ok := true; spirv_compiler_init_ok := true;
     ra_d3d11_create_ok := true; vo_w32_init_ok := true;
     create_swapchain_ok := false; GetBuffer_hr := S_OK;
     wrap_tex := Some 4%nat |}.
(** * Properties *)

(** ** Machine integers *)

Section CIntFacts.

Lemma to_int64_small (z : Z) : is_int64 z -> to_int64 z = z.
Proof.
  unfold is_int64, to_int64, INT64_MIN, INT64_MAX, INT64_MOD.
  intros H. rewrite Z.mod_small; lia.
Qed.

Lemma to_unsigned_small (z : Z) : is_unsigned z -> to_unsigned z = z.
Proof.
  unfold is_unsigned, to_unsigned. intros H. now apply Z.mod_small.
Qed.

Lemma to_unsigned_range (z : Z) : is_unsigned (to_unsigned z).
Proof.
  unfold is_unsigned, to_unsigned, UINT_MOD. apply Z.mod_pos_bound. lia.
Qed.

Lemma to_int64_range (z : Z) : is_int64 (to_int64 z).
Proof.
  unfold is_int64, to_int64, INT64_MIN, INT64_MAX, INT64_MOD.
  pose proof (Z.mod_pos_bound (z + 2 ^ 63) (2 ^ 64)). lia.
Qed.

Lemma checked_small (z : Z) : is_int64 z -> checked z = Some z.
Proof.
  unfold is_int64, checked, in_int64. intros [Hlo Hhi].
  apply Z.leb_le in Hlo. apply Z.leb_le in Hhi.
  now rewrite Hlo, Hhi.
Qed.

Lemma checked_Some (z r : Z) : checked z = Some r -> r = z /\ is_int64 z.
Proof.
  unfold checked, in_int64, is_int64.
  destruct (INT64_MIN <=? z) eqn:Hlo; [|discriminate].
  destruct (z <=? INT64_MAX) eqn:Hhi; [|discriminate].
  simpl. intros H. injection H as <-.
  apply Z.leb_le in Hlo. apply Z.leb_le in Hhi. repeat split; assumption.
Qed.

Lemma nonzero_true (z : Z) : nonzero z = true <-> z <> 0.
Proof.
  unfold nonzero. rewrite negb_true_iff. apply Z.eqb_neq.
Qed.

Lemma nonzero_false (z : Z) : nonzero z = false <-> z = 0.
Proof.
  unfold nonzero. rewrite negb_false_iff. apply Z.eqb_eq.
Qed.

Lemma nonzero_unsigned_pos (z : Z) :
  nonzero (to_unsigned z) = true <-> 0 < to_unsigned z.
Proof.
  rewrite nonzero_true. pose proof (to_unsigned_range z) as H.
  unfold is_unsigned in H. lia.
Qed.

End CIntFacts.

(** ** Clock conversion *)


Section QpcToUs.

Variable p : priv.
Let freq := perf_freq p.

Hypothesis freq_pos : 0 < freq.

(** Whole seconds and the remainder, for a counter that is not negative. *)
Lemma qpc_split (ticks : Z) :
  0 <= ticks ->
  Z.quot ticks freq = ticks / freq /\ Z.rem ticks freq = ticks mod freq.
Proof.
  intros H. split.
  - apply Z.quot_div_nonneg; lia.
  - apply Z.rem_mod_nonneg; lia.
Qed.

Lemma split_exact (ticks : Z) :
  ticks / freq * 1000000 + ticks mod freq * 1000000 / freq
  = ticks * 1000000 / freq.
Proof.
  rewrite (Z.div_mod ticks freq) at 3 by lia.
  replace ((freq * (ticks / freq) + ticks mod freq) * 1000000)
    with (ticks / freq * 1000000 * freq + ticks mod freq * 1000000) by ring.
  rewrite Z.div_add_l by lia. reflexivity.
Qed.

(** When [freq * 1000000] and the exact result fit [int64_t], no step of
    the conversion overflows and the result is exact. *)
Lemma qpc_to_us_bounded (ticks : Z) :
  0 <= ticks <= INT64_MAX ->
  freq * 1000000 <= INT64_MAX ->
  ticks * 1000000 / freq <= INT64_MAX ->
  qpc_to_us_checked p ticks = Some (ticks * 1000000 / freq) /\
  qpc_to_us p ticks = ticks * 1000000 / freq.
Proof.
  intros [Hnn Hmax] Hb Hsum.
  rewrite <- split_exact in Hsum.
  destruct (qpc_split ticks Hnn) as [Eq Er].
  pose proof (Z.mod_pos_bound ticks freq freq_pos) as Hr.
  assert (Hq0 : 0 <= ticks / freq) by (apply Z.div_pos; lia).
  assert (Hqle : ticks / freq <= ticks).
  { apply Z.div_le_upper_bound; nia. }
  assert (Hpart : 0 <= ticks mod freq * 1000000 / freq < 1000000).
  { split.
    - apply Z.div_pos; lia.
    - apply Z.div_lt_upper_bound; nia. }
  assert (Hsc : Z.quot (ticks mod freq * 1000000) freq
                = ticks mod freq * 1000000 / freq).
  { apply Z.quot_div_nonneg; lia. }
  unfold INT64_MAX in *.
  assert (R1 : is_int64 (ticks / freq))
    by (unfold is_int64, INT64_MIN, INT64_MAX; lia).
  assert (R2 : is_int64 (ticks / freq * 1000000))
    by (unfold is_int64, INT64_MIN, INT64_MAX; lia).
  assert (R3 : is_int64 (ticks mod freq * 1000000))
    by (unfold is_int64, INT64_MIN, INT64_MAX; lia).
  assert (R4 : is_int64 (ticks mod freq * 1000000 / freq))
    by (unfold is_int64, INT64_MIN, INT64_MAX; lia).
  assert (R5 : is_int64 (ticks / freq * 1000000 +
                         ticks mod freq * 1000000 / freq))
    by (unfold is_int64, INT64_MIN, INT64_MAX; lia).
  assert (Hf : (freq =? 0) = false) by (apply Z.eqb_neq; lia).
  assert (Hm1 : (freq =? -1) = false) by (apply Z.eqb_neq; lia).
  split.
  - unfold qpc_to_us_checked, div64, rem64, mul64, add64. fold freq.
    rewrite Hf, Hm1, andb_false_r. rewrite Eq, Er.
    rewrite (checked_small _ R1). cbn [bind].
    rewrite (checked_small _ R2). cbn [bind].
    rewrite (checked_small _ R3). cbn [bind].
    rewrite Hsc, (checked_small _ R4). cbn [bind].
    rewrite (checked_small _ R5). now rewrite split_exact.
  - unfold qpc_to_us. fold freq. rewrite Eq, Er.
    rewrite (to_int64_small _ R1), (to_int64_small _ R2).
    rewrite (to_int64_small _ R3), Hsc, (to_int64_small _ R4).
    rewrite (to_int64_small _ R5). apply split_exact.
Qed.

End QpcToUs.

(** A frequency of at least 1 MHz never overflows either, whatever the
    count. *)
Lemma qpc_to_us_exact_from_1MHz (p : priv) (ticks : Z) :
  1000000 <= perf_freq p ->
  perf_freq p * 1000000 <= INT64_MAX ->
  0 <= ticks <= INT64_MAX ->
  qpc_to_us_checked p ticks = Some (ticks * 1000000 / perf_freq p) /\
  qpc_to_us p ticks = ticks * 1000000 / perf_freq p.
Proof.
  intros Hf Hy Ht.
  apply (qpc_to_us_bounded p ltac:(lia) ticks); try lia.
  transitivity (ticks * 1000000 / 1000000).
  - apply Z.div_le_compat_l; lia.
  - rewrite Z.div_mul by lia. lia.
Qed.

(** C2 (as stated, refuted): a count that fits a signed 64-bit counter and
    a frequency at which 100 years of ticks fit do not suffice: at one tick
    per second and 2^62 ticks the product of the whole seconds by 1000000
    leaves the 64-bit range, and the wrapped result is not the exact
    quotient. *)
Lemma qpc_to_us_overflows_late :
  (0 <= late_ticks <= INT64_MAX) /\
  0 < perf_freq slow_clock /\
  perf_freq slow_clock * seconds_in_100_years <= INT64_MAX /\
  qpc_to_us_checked slow_clock late_ticks = None /\
  qpc_to_us slow_clock late_ticks
    <> late_ticks * 1000000 / perf_freq slow_clock.
Proof.
  repeat split; try (vm_compute; congruence).
Qed.

(** C2 (amended): for a frequency at which 100 years of ticks fit a signed
    64-bit counter and a count below 100 years of ticks,
    [qpc / freq * 1000000 + qpc % freq * 1000000 / freq] overflows at no
    step and is the floor of [ticks * 1000000 / freq]. *)
Theorem qpc_to_us_exact (p : priv) (ticks : Z) :
  0 < perf_freq p ->
  perf_freq p * seconds_in_100_years <= INT64_MAX ->
  0 <= ticks < perf_freq p * seconds_in_100_years ->
  qpc_to_us_checked p ticks = Some (ticks * 1000000 / perf_freq p) /\
  qpc_to_us p ticks = ticks * 1000000 / perf_freq p.
Proof.
  intros Hf Hy Ht.
  unfold seconds_in_100_years in *.
  apply (qpc_to_us_bounded p Hf ticks); try lia.
  assert (ticks * 1000000 / perf_freq p < 3155760000 * 1000000).
  { apply Z.div_lt_upper_bound; lia. }
  unfold INT64_MAX. lia.
Qed.

Lemma qpc_to_us_exact_witness :
  qpc_to_us_checked clock_10MHz 1020000 = Some 102000 /\
  qpc_to_us clock_10MHz 1020000 = 102000.
Proof.
  apply (qpc_to_us_exact clock_10MHz 1020000); vm_compute; intuition congruence.
Defined.

(** ** Vsync estimator: how one call ends *)

Lemma disjoint_is_failure : FAILED DXGI_ERROR_FRAME_STATISTICS_DISJOINT = true.
Proof. reflexivity. Qed.

Lemma not_failed_not_disjoint (hr : HRESULT) :
  FAILED hr = false -> (hr =? DXGI_ERROR_FRAME_STATISTICS_DISJOINT) = false.
Proof.
  unfold FAILED. intros H. apply Z.ltb_ge in H. apply Z.eqb_neq.
  intros ->. vm_compute in H. now apply H.
Qed.


Ltac split_ifs :=
  repeat match goal with
         | |- context [if ?b then _ else _] => destruct b
         end.

Section OneCall.

Variable p : priv.
Variable q : vsync_query.
Variable info : vo_vsync_info.

Let r := d3d11_get_vsync p q info.
Let st := stats q.

(** The estimate the call leaves. *)
Let period : Z :=
  if nonzero (src_passed p st) && nonzero (sqt_passed p st)
  then Z.quot (sqt_passed p st) (src_passed p st)
  else vsync_duration_qpc p.

Lemma get_vsync_other_interval :
  sync_interval (opts p) <> 1 -> r = (p, info).
Proof.
  intros H. subst r. unfold d3d11_get_vsync.
  apply Z.eqb_neq in H. now rewrite H.
Qed.

Lemma get_vsync_no_present_count :
  FAILED (hr_last_present_count q) = true -> r = (p, info).
Proof.
  intros H. subst r. unfold d3d11_get_vsync. rewrite H.
  now destruct (negb (sync_interval (opts p) =? 1)).
Qed.

Lemma get_vsync_no_statistics :
  sync_interval (opts p) = 1 ->
  FAILED (hr_last_present_count q) = false ->
  FAILED (hr_frame_statistics q) = true ->
  r = (if hr_frame_statistics q =? DXGI_ERROR_FRAME_STATISTICS_DISJOINT
       then forget_last_sync p else p, info).
Proof.
  intros Hs H1 H2. subst r. unfold d3d11_get_vsync.
  apply Z.eqb_eq in Hs. rewrite Hs, H1, H2. reflexivity.
Qed.

Section Sample.

Hypothesis interval_1 : sync_interval (opts p) = 1.
Hypothesis present_count_ok : FAILED (hr_last_present_count q) = false.
Hypothesis statistics_ok : FAILED (hr_frame_statistics q) = false.

(** The statistics are taken: the call stores both counters,
    possibly a new estimate, and fills the record. *)
Lemma sample_result :
  let p' :=
    {| opts := opts p; backbuffer := backbuffer p;
       perf_freq := perf_freq p;
       last_sync_refresh_count := SyncRefreshCount st;
       last_sync_qpc_time := SyncQPCTime st;
       vsync_duration_qpc := period;
       last_submit_qpc := last_submit_qpc p |} in
  let info1 :=
    if nonzero period
    then set_vsync_duration (set_skipped_vsyncs info 0)
           (qpc_to_us p' period)
    else set_skipped_vsyncs info 0 in
  let lqdt := last_queue_display_time_qpc p' (submit_count q) st in
  r = (p',
       if nonzero period && nonzero (PresentCount st) &&
          nonzero (PresentRefreshCount st) &&
          nonzero (SyncRefreshCount st) && nonzero (SyncQPCTime st)
       then
         if lqdt >=? last_submit_qpc p
         then set_last_queue_display_time info1
                (to_int64
                   (mp_time_us q +
                    to_int64 (qpc_to_us p' lqdt -
                              qpc_us_now p' (perf_count_now q))))
         else info1
       else info1).
Proof.
  subst r period st. unfold d3d11_get_vsync.
  apply Z.eqb_eq in interval_1.
  rewrite interval_1, present_count_ok, statistics_ok.
  rewrite (not_failed_not_disjoint _ statistics_ok).
  cbn [negb].
  change (sqt_passed (set_last_sync_refresh_count p
                        (SyncRefreshCount (stats q))) (stats q))
    with (sqt_passed p (stats q)).
  destruct (nonzero (src_passed p (stats q)) &&
            nonzero (sqt_passed p (stats q)));
    cbv zeta;
    unfold set_vsync_duration_qpc, set_last_sync_qpc_time,
      set_last_sync_refresh_count;
    cbn [opts backbuffer perf_freq last_sync_refresh_count
         last_sync_qpc_time vsync_duration_qpc last_submit_qpc];
    match goal with
    | |- context [nonzero ?x && _ && _ && _ && _] => set (period := x)
    end;
    destruct (nonzero period && nonzero (PresentCount (stats q)) &&
              nonzero (PresentRefreshCount (stats q)) &&
              nonzero (SyncRefreshCount (stats q)) &&
              nonzero (SyncQPCTime (stats q)));
    try reflexivity;
    match goal with
    | |- context [?a >=? ?b] => destruct (a >=? b)
    end; reflexivity.
Qed.

End Sample.

End OneCall.

Lemma qpc_to_us_same_freq (p1 p2 : priv) (qpc : Z) :
  perf_freq p1 = perf_freq p2 -> qpc_to_us p1 qpc = qpc_to_us p2 qpc.
Proof. unfold qpc_to_us. now intros ->. Qed.

(** After the disjoint status: the two stored counters are zero, the rest
    is as before. *)
Lemma get_vsync_forgets (p : priv) (q : vsync_query) (info : vo_vsync_info) :
  sync_interval (opts p) = 1 ->
  FAILED (hr_last_present_count q) = false ->
  hr_frame_statistics q = DXGI_ERROR_FRAME_STATISTICS_DISJOINT ->
  d3d11_get_vsync p q info = (forget_last_sync p, info).
Proof.
  intros Hs H1 H2.
  rewrite (get_vsync_no_statistics p q info Hs H1)
    by (rewrite H2; apply disjoint_is_failure).
  now rewrite H2, Z.eqb_refl.
Qed.

(** ** Vsync estimator: calls that take no sample *)

(** C7: with a sync interval other than 1, whatever the platform answers,
    [d3d11_get_vsync] hands the caller's record back as it came and leaves
    [struct priv] as it was. *)
Theorem get_vsync_needs_interval_1
    (p : priv) (q : vsync_query) (info : vo_vsync_info) :
  sync_interval (opts p) <> 1 ->
  d3d11_get_vsync p q info = (p, info).
Proof. apply get_vsync_other_interval. Qed.

Lemma get_vsync_needs_interval_1_witness :
  sync_interval (opts running_interval_2) <> 1 /\
  d3d11_get_vsync running_interval_2
    (answer S_OK 7 (statistics 5 101 102 1020000)) unset_info
  = (running_interval_2, unset_info).
Proof.
  split.
  - vm_compute. discriminate.
  - apply get_vsync_needs_interval_1. vm_compute. discriminate.
Defined.

(** C1 (as stated, refuted): a sample reported with the disjoint status is
    not processed further: the stored counters are zero afterwards, not the
    sample's, and the caller's record is handed back untouched. *)
Lemma disjoint_sample_is_dropped :
  hr_frame_statistics
    (answer DXGI_ERROR_FRAME_STATISTICS_DISJOINT 7
       (statistics 5 101 102 1020000))
  = DXGI_ERROR_FRAME_STATISTICS_DISJOINT /\
  last_sync_refresh_count
    (fst (d3d11_get_vsync running
            (answer DXGI_ERROR_FRAME_STATISTICS_DISJOINT 7
               (statistics 5 101 102 1020000)) unset_info)) = 0 /\
  last_sync_qpc_time
    (fst (d3d11_get_vsync running
            (answer DXGI_ERROR_FRAME_STATISTICS_DISJOINT 7
               (statistics 5 101 102 1020000)) unset_info)) = 0 /\
  snd (d3d11_get_vsync running
         (answer DXGI_ERROR_FRAME_STATISTICS_DISJOINT 7
            (statistics 5 101 102 1020000)) unset_info) = unset_info /\
  d3d11_get_vsync running
    (answer S_OK 7 (statistics 5 101 102 1020000)) unset_info
  = ({| opts := default_opts; backbuffer := Some 0%nat;
        perf_freq := 10000000;
        last_sync_refresh_count := 102; last_sync_qpc_time := 1020000;
        vsync_duration_qpc := 10000; last_submit_qpc := 1005000 |},
     {| last_queue_display_time := 5000500; vsync_duration := 1000;
        skipped_vsyncs := 0 |}).
Proof. repeat split; vm_compute; reflexivity. Qed.

(** C1 (amended): when the statistics query reports a disjoint timeline,
    the estimator sets [last_sync_refresh_count] and [last_sync_qpc_time]
    to zero and returns at once: the sample is not looked at, the estimate
    and everything else in [struct priv] stay, the caller's record comes
    back as it went in. *)
Theorem get_vsync_disjoint
    (p : priv) (q : vsync_query) (info : vo_vsync_info) :
  sync_interval (opts p) = 1 ->
  FAILED (hr_last_present_count q) = false ->
  hr_frame_statistics q = DXGI_ERROR_FRAME_STATISTICS_DISJOINT ->
  d3d11_get_vsync p q info =
  ({| opts := opts p; backbuffer := backbuffer p; perf_freq := perf_freq p;
      last_sync_refresh_count := 0; last_sync_qpc_time := 0;
      vsync_duration_qpc := vsync_duration_qpc p;
      last_submit_qpc := last_submit_qpc p |}, info).
Proof.
  intros Hs H1 H2. now rewrite (get_vsync_forgets p q info Hs H1 H2).
Qed.

Lemma get_vsync_disjoint_witness :
  d3d11_get_vsync running
    (answer DXGI_ERROR_FRAME_STATISTICS_DISJOINT 7
       (statistics 5 101 102 1020000)) unset_info
  = ({| opts := default_opts; backbuffer := Some 0%nat;
        perf_freq := 10000000;
        last_sync_refresh_count := 0; last_sync_qpc_time := 0;
        vsync_duration_qpc := 10000; last_submit_qpc := 1005000 |},
     unset_info).
Proof.
  apply (get_vsync_disjoint running
           (answer DXGI_ERROR_FRAME_STATISTICS_DISJOINT 7
              (statistics 5 101 102 1020000)) unset_info);
    reflexivity.
Defined.

(** What no call of [d3d11_get_vsync] touches. *)
Lemma get_vsync_frame (p : priv) (q : vsync_query) (info : vo_vsync_info) :
  opts (fst (d3d11_get_vsync p q info)) = opts p /\
  backbuffer (fst (d3d11_get_vsync p q info)) = backbuffer p /\
  perf_freq (fst (d3d11_get_vsync p q info)) = perf_freq p /\
  last_submit_qpc (fst (d3d11_get_vsync p q info)) = last_submit_qpc p.
Proof.
  destruct (Z.eq_dec (sync_interval (opts p)) 1) as [Hs | Hs].
  2: { now rewrite get_vsync_other_interval. }
  destruct (FAILED (hr_last_present_count q)) eqn:H1.
  { now rewrite get_vsync_no_present_count. }
  destruct (FAILED (hr_frame_statistics q)) eqn:H2.
  - rewrite (get_vsync_no_statistics p q info Hs H1 H2).
    now destruct (_ =? _).
  - rewrite (sample_result p q info Hs H1 H2). repeat split.
Qed.

(** A call that takes no sample hands the caller's record back. *)
Lemma get_vsync_no_sample_info
    (p : priv) (q : vsync_query) (info : vo_vsync_info) :
  sync_interval (opts p) <> 1 \/
  FAILED (hr_last_present_count q) = true \/
  FAILED (hr_frame_statistics q) = true ->
  snd (d3d11_get_vsync p q info) = info /\
  vsync_duration_qpc (fst (d3d11_get_vsync p q info)) = vsync_duration_qpc p.
Proof.
  intros H.
  destruct (Z.eq_dec (sync_interval (opts p)) 1) as [Hs | Hs].
  2: { now rewrite get_vsync_other_interval. }
  destruct (FAILED (hr_last_present_count q)) eqn:H1.
  { now rewrite get_vsync_no_present_count. }
  destruct (FAILED (hr_frame_statistics q)) eqn:H2.
  - rewrite (get_vsync_no_statistics p q info Hs H1 H2).
    now destruct (_ =? _).
  - exfalso. destruct H as [H | [H | H]]; congruence.
Qed.




(** ** Who writes the estimator state *)

(** C8 (as stated, refuted): a disjoint timeline does not zero the whole
    estimator state, the estimate and the last submit time survive it; and
    the last submit time is written by [d3d11_swap_buffers], which is not
    the estimator's update. *)
Lemma estimator_state_not_all_reset :
  vsync_duration_qpc
    (run_call running
       (CallGetVsync
          (answer DXGI_ERROR_FRAME_STATISTICS_DISJOINT 9 (statistics 8 0 0 0))
          unset_info)) = 10000 /\
  last_submit_qpc
    (run_call running
       (CallGetVsync
          (answer DXGI_ERROR_FRAME_STATISTICS_DISJOINT 9 (statistics 8 0 0 0))
          unset_info)) = 1005000 /\
  last_submit_qpc running = 1005000 /\
  last_submit_qpc (run_call running (CallSwapBuffers 1015000)) = 1015000.
Proof. repeat split; vm_compute; reflexivity. Qed.

(** C8 (amended): of the estimator state, a disjoint timeline reported to
    [d3d11_get_vsync] zeroes the last refresh counter and the last refresh
    timestamp only, the estimated period and the last submit time stay.
    The three former are written by [d3d11_get_vsync] alone, the last
    submit time by [d3d11_swap_buffers] alone, which stores the counter it
    has just read. *)
Theorem estimator_state_writers (p : priv) (c : call) :
  (forall q info,
      c = CallGetVsync q info ->
      sync_interval (opts p) = 1 ->
      FAILED (hr_last_present_count q) = false ->
      hr_frame_statistics q = DXGI_ERROR_FRAME_STATISTICS_DISJOINT ->
      last_sync_refresh_count (run_call p c) = 0 /\
      last_sync_qpc_time (run_call p c) = 0 /\
      vsync_duration_qpc (run_call p c) = vsync_duration_qpc p /\
      last_submit_qpc (run_call p c) = last_submit_qpc p) /\
  ((forall q info, c <> CallGetVsync q info) ->
   last_sync_refresh_count (run_call p c) = last_sync_refresh_count p /\
   last_sync_qpc_time (run_call p c) = last_sync_qpc_time p /\
   vsync_duration_qpc (run_call p c) = vsync_duration_qpc p) /\
  ((forall perf_count, c <> CallSwapBuffers perf_count) ->
   last_submit_qpc (run_call p c) = last_submit_qpc p) /\
  (forall perf_count,
      c = CallSwapBuffers perf_count ->
      last_submit_qpc (run_call p c) = perf_count).
Proof.
  split; [|split; [|split]].
  - intros q info -> Hs H1 H2. cbn [run_call].
    rewrite (get_vsync_forgets p q info Hs H1 H2). repeat split.
  - intros Hc. destruct c as [q info | pc | hr tex | | | ];
      try (repeat split; fail).
    + exfalso. now apply (Hc q info).
    + cbn [run_call]. unfold resize. now destruct (FAILED hr).
  - intros Hc. destruct c as [q info | pc | hr tex | | | ];
      try reflexivity.
    + cbn [run_call]. apply get_vsync_frame.
    + exfalso. now apply (Hc pc).
    + cbn [run_call]. unfold resize. now destruct (FAILED hr).
  - intros pc ->. reflexivity.
Qed.

Lemma estimator_state_writers_witness :
  last_sync_refresh_count
    (run_call running
       (CallGetVsync
          (answer DXGI_ERROR_FRAME_STATISTICS_DISJOINT 9 (statistics 8 0 0 0))
          unset_info)) = 0 /\
  last_sync_refresh_count (run_call running (CallSwapBuffers 1015000))
  = last_sync_refresh_count running /\
  last_submit_qpc (run_call running (CallResize E_FAIL None))
  = last_submit_qpc running.
Proof.
  split; [|split].
  - destruct (estimator_state_writers running
                (CallGetVsync
                   (answer DXGI_ERROR_FRAME_STATISTICS_DISJOINT 9
                      (statistics 8 0 0 0)) unset_info)) as (Hd & _).
    destruct (Hd _ _ eq_refl eq_refl eq_refl eq_refl) as (H & _). exact H.
  - destruct (estimator_state_writers running (CallSwapBuffers 1015000))
      as (_ & Hg & _).
    destruct Hg as (H & _); [intros q info; discriminate | exact H].
  - destruct (estimator_state_writers running (CallResize E_FAIL None))
      as (_ & _ & Hs & _).
    apply Hs. intros pc. discriminate.
Defined.

(** ** Vsync estimator: the period estimate *)

(** A call either keeps the estimate or has taken a sample in which both
    differences are non-zero, and then stores their quotient. *)
Lemma get_vsync_estimate (p : priv) (q : vsync_query) (info : vo_vsync_info) :
  vsync_duration_qpc (fst (d3d11_get_vsync p q info)) = vsync_duration_qpc p \/
  (sync_interval (opts p) = 1 /\
   FAILED (hr_last_present_count q) = false /\
   FAILED (hr_frame_statistics q) = false /\
   nonzero (src_passed p (stats q)) = true /\
   nonzero (sqt_passed p (stats q)) = true /\
   vsync_duration_qpc (fst (d3d11_get_vsync p q info))
   = Z.quot (sqt_passed p (stats q)) (src_passed p (stats q))).
Proof.
  destruct (Z.eq_dec (sync_interval (opts p)) 1) as [Hs | Hs].
  2: { left. now rewrite get_vsync_other_interval. }
  destruct (FAILED (hr_last_present_count q)) eqn:H1.
  { left. now rewrite get_vsync_no_present_count. }
  destruct (FAILED (hr_frame_statistics q)) eqn:H2.
  { left. apply get_vsync_no_sample_info. tauto. }
  rewrite (sample_result p q info Hs H1 H2). cbn [fst vsync_duration_qpc].
  destruct (nonzero (src_passed p (stats q))) eqn:Ea;
    destruct (nonzero (sqt_passed p (stats q))) eqn:Eb; cbn [andb]; auto.
  right. repeat split; assumption.
Qed.

Lemma src_passed_pos (p : priv) (st : DXGI_FRAME_STATISTICS) :
  nonzero (src_passed p st) = true <-> 0 < src_passed p st.
Proof.
  unfold src_passed. destruct (_ && _).
  - apply nonzero_unsigned_pos.
  - split; [discriminate | lia].
Qed.




Lemma src_passed_stays (c : Z) (p : priv) (st : DXGI_FRAME_STATISTICS) :
  refresh_stays c p -> SyncRefreshCount st = c -> src_passed p st = 0.
Proof.
  unfold src_passed. intros [H | H] Hc; rewrite H, Hc.
  - rewrite Z.sub_diag. now destruct (_ && _).
  - now rewrite andb_false_r.
Qed.










(** ** Vsync estimator: the predicted display time *)

Lemma to_int_of_unsigned (z : Z) :
  INT_MIN <= z <= INT_MAX -> to_int (to_unsigned z) = z.
Proof.
  unfold to_int, to_unsigned, INT_MIN, INT_MAX, UINT_MOD. intros H.
  rewrite Zplus_mod_idemp_l. rewrite Z.mod_small; lia.
Qed.

Lemma queued_frames_mod (submit : Z) (st : DXGI_FRAME_STATISTICS) :
  to_unsigned (submit - expected_sync_pc st)
  = to_unsigned
      (submit -
       (PresentCount st + (SyncRefreshCount st - PresentRefreshCount st))).
Proof.
  unfold expected_sync_pc, to_unsigned.
  rewrite Zminus_mod_idemp_r. rewrite <- Zminus_mod_idemp_r.
  rewrite Zplus_mod_idemp_r. rewrite Zminus_mod_idemp_r. reflexivity.
Qed.

(** Where nothing wraps, the prediction is the one of plain integers. *)
Lemma prediction_exact (p : priv) (submit : Z) (st : DXGI_FRAME_STATISTICS) :
  INT_MIN <=
    submit - (PresentCount st + (SyncRefreshCount st - PresentRefreshCount st))
    <= INT_MAX ->
  is_int64
    ((submit -
      (PresentCount st + (SyncRefreshCount st - PresentRefreshCount st))) *
     vsync_duration_qpc p) ->
  is_int64
    (SyncQPCTime st +
     (submit -
      (PresentCount st + (SyncRefreshCount st - PresentRefreshCount st))) *
     vsync_duration_qpc p) ->
  last_queue_display_time_qpc p submit st
  = SyncQPCTime st +
    (submit -
     (PresentCount st + (SyncRefreshCount st - PresentRefreshCount st))) *
    vsync_duration_qpc p.
Proof.
  intros Hq Hm Ha. unfold last_queue_display_time_qpc, queued_frames.
  rewrite queued_frames_mod, (to_int_of_unsigned _ Hq).
  now rewrite (to_int64_small _ Hm), (to_int64_small _ Ha).
Qed.

(** C4: with the prediction
    [SyncQPCTime + (submit_count - (PresentCount + (SyncRefreshCount -
    PresentRefreshCount))) * vsync_duration_qpc], taken in the C types of
    the code and with the estimate the call leaves, a prediction below
    [last_submit_qpc] leaves [last_queue_display_time] of the caller's
    record as it came, so a call that changes the field had a prediction
    at or after the last submit; and a sample in which the estimate and
    the four statistics are non-zero and the prediction is not below the
    last submit does publish it, shifted to the wall clock. *)
Theorem display_time_after_submit
    (p : priv) (q : vsync_query) (info : vo_vsync_info) :
  last_queue_display_time_qpc (fst (d3d11_get_vsync p q info))
    (submit_count q) (stats q)
  = to_int64
      (SyncQPCTime (stats q) +
       to_int64
         (to_int
            (to_unsigned
               (submit_count q -
                to_unsigned
                  (PresentCount (stats q) +
                   to_unsigned (SyncRefreshCount (stats q) -
                                PresentRefreshCount (stats q))))) *
          vsync_duration_qpc (fst (d3d11_get_vsync p q info)))) /\
  (last_queue_display_time_qpc (fst (d3d11_get_vsync p q info))
     (submit_count q) (stats q)
   < last_submit_qpc (fst (d3d11_get_vsync p q info)) ->
   last_queue_display_time (snd (d3d11_get_vsync p q info))
   = last_queue_display_time info) /\
  (last_queue_display_time (snd (d3d11_get_vsync p q info))
   <> last_queue_display_time info ->
   last_queue_display_time_qpc (fst (d3d11_get_vsync p q info))
     (submit_count q) (stats q)
   >= last_submit_qpc (fst (d3d11_get_vsync p q info))) /\
  (sync_interval (opts p) = 1 ->
   FAILED (hr_last_present_count q) = false ->
   FAILED (hr_frame_statistics q) = false ->
   vsync_duration_qpc (fst (d3d11_get_vsync p q info)) <> 0 ->
   PresentCount (stats q) <> 0 -> PresentRefreshCount (stats q) <> 0 ->
   SyncRefreshCount (stats q) <> 0 -> SyncQPCTime (stats q) <> 0 ->
   last_queue_display_time_qpc (fst (d3d11_get_vsync p q info))
     (submit_count q) (stats q)
   >= last_submit_qpc (fst (d3d11_get_vsync p q info)) ->
   last_queue_display_time (snd (d3d11_get_vsync p q info))
   = to_int64
       (mp_time_us q +
        to_int64
          (qpc_to_us p
             (last_queue_display_time_qpc (fst (d3d11_get_vsync p q info))
                (submit_count q) (stats q)) -
           qpc_us_now p (perf_count_now q)))).
Proof.
  assert (Hlt :
    last_queue_display_time_qpc (fst (d3d11_get_vsync p q info))
      (submit_count q) (stats q)
    < last_submit_qpc (fst (d3d11_get_vsync p q info)) ->
    last_queue_display_time (snd (d3d11_get_vsync p q info))
    = last_queue_display_time info).
  { destruct (Z.eq_dec (sync_interval (opts p)) 1) as [Hs | Hs].
    2: { now rewrite get_vsync_other_interval. }
    destruct (FAILED (hr_last_present_count q)) eqn:H1.
    { now rewrite get_vsync_no_present_count. }
    destruct (FAILED (hr_frame_statistics q)) eqn:H2.
    { intros _.
      destruct (get_vsync_no_sample_info p q info) as [Hi _]; [tauto|].
      now rewrite Hi. }
    rewrite (sample_result p q info Hs H1 H2).
    cbn [fst snd last_submit_qpc]. intros Hlt.
    apply Z.lt_nge in Hlt.
    destruct (_ >=? _) eqn:E; [apply Z.geb_le in E; lia|].
    split_ifs; reflexivity. }
  split; [reflexivity|]. split; [exact Hlt|]. split.
  - intros Hne.
    destruct (Z_lt_ge_dec
                (last_queue_display_time_qpc (fst (d3d11_get_vsync p q info))
                   (submit_count q) (stats q))
                (last_submit_qpc (fst (d3d11_get_vsync p q info))))
      as [Hl | Hg]; [now apply Hlt in Hl | exact Hg].
  - intros Hs H1 H2. rewrite (sample_result p q info Hs H1 H2).
    cbn [fst snd last_submit_qpc vsync_duration_qpc].
    intros Hd Hpc Hprc Hsrc Hsqt Hge.
    apply nonzero_true in Hd, Hpc, Hprc, Hsrc, Hsqt.
    rewrite Hd, Hpc, Hprc, Hsrc, Hsqt. cbn [andb].
    apply Z.geb_ge in Hge. rewrite Hge.
    cbn [last_queue_display_time set_last_queue_display_time].
    reflexivity.
Qed.

Lemma display_time_after_submit_witness :
  last_queue_display_time
    (snd (d3d11_get_vsync running
            (answer S_OK 3 (statistics 5 101 102 1020000)) unset_info))
  = -1 /\
  last_queue_display_time
    (snd (d3d11_get_vsync running
            (answer S_OK 7 (statistics 5 101 102 1020000)) unset_info))
  = 5000500.
Proof.
  split.
  - destruct (display_time_after_submit running
                (answer S_OK 3 (statistics 5 101 102 1020000)) unset_info)
      as (_ & Hlt & _).
    apply Hlt. vm_compute. reflexivity.
  - destruct (display_time_after_submit running
                (answer S_OK 7 (statistics 5 101 102 1020000)) unset_info)
      as (_ & _ & _ & Hpub).
    rewrite Hpub; try reflexivity; vm_compute; discriminate.
Defined.

(** ** Vsync estimator: two samples at 10 MHz *)

(** C6: from a zeroed estimator at 10,000,000 ticks per second and sync
    interval 1, a first sample with refresh counter 100 at tick 1,000,000
    only stores the two counters (no estimate, no duration and no display
    time published); a second sample with refresh counter 102 at tick
    1,020,000 then sees 2 refreshes and 20,000 ticks passed, estimates
    10,000 ticks per vsync and publishes a vsync duration of 1,000
    microseconds. *)
Theorem two_samples_at_100Hz
    (p0 : priv) (q1 q2 : vsync_query) (info1 info2 : vo_vsync_info) :
  sync_interval (opts p0) = 1 ->
  perf_freq p0 = 10000000 ->
  last_sync_refresh_count p0 = 0 ->
  last_sync_qpc_time p0 = 0 ->
  vsync_duration_qpc p0 = 0 ->
  FAILED (hr_last_present_count q1) = false ->
  FAILED (hr_frame_statistics q1) = false ->
  SyncRefreshCount (stats q1) = 100 ->
  SyncQPCTime (stats q1) = 1000000 ->
  FAILED (hr_last_present_count q2) = false ->
  FAILED (hr_frame_statistics q2) = false ->
  SyncRefreshCount (stats q2) = 102 ->
  SyncQPCTime (stats q2) = 1020000 ->
  let p1 := fst (d3d11_get_vsync p0 q1 info1) in
  let p2 := fst (d3d11_get_vsync p1 q2 info2) in
  (last_sync_refresh_count p1 = 100 /\
   last_sync_qpc_time p1 = 1000000 /\
   vsync_duration_qpc p1 = 0 /\
   vsync_duration (snd (d3d11_get_vsync p0 q1 info1)) = vsync_duration info1 /\
   last_queue_display_time (snd (d3d11_get_vsync p0 q1 info1))
   = last_queue_display_time info1) /\
  src_passed p1 (stats q2) = 2 /\
  sqt_passed p1 (stats q2) = 20000 /\
  vsync_duration_qpc p2 = 10000 /\
  vsync_duration (snd (d3d11_get_vsync p1 q2 info2)) = 1000.
Proof.
  intros Hs Hf Hc0 Ht0 Hd0 Ha1 Hb1 Hc1 Ht1 Ha2 Hb2 Hc2 Ht2 p1 p2.
  assert (Hsrc1 : src_passed p0 (stats q1) = 0).
  { unfold src_passed. now rewrite Hc0, andb_false_r. }
  assert (Hp1 : p1 =
    {| opts := opts p0; backbuffer := backbuffer p0; perf_freq := 10000000;
       last_sync_refresh_count := 100; last_sync_qpc_time := 1000000;
       vsync_duration_qpc := 0; last_submit_qpc := last_submit_qpc p0 |}).
  { subst p1. rewrite (sample_result p0 q1 info1 Hs Ha1 Hb1).
    cbn [fst]. rewrite Hsrc1, Hc1, Ht1, Hf, Hd0. reflexivity. }
  assert (Hsrc2 : src_passed p1 (stats q2) = 2).
  { rewrite Hp1. unfold src_passed.
    cbn [last_sync_refresh_count]. rewrite Hc2. reflexivity. }
  assert (Hsqt2 : sqt_passed p1 (stats q2) = 20000).
  { rewrite Hp1. unfold sqt_passed.
    cbn [last_sync_qpc_time]. rewrite Ht2. reflexivity. }
  assert (Hs1 : sync_interval (opts p1) = 1) by now rewrite Hp1.
  split; [|split; [exact Hsrc2 | split; [exact Hsqt2 | split]]].
  - rewrite Hp1. cbn [last_sync_refresh_count last_sync_qpc_time
                      vsync_duration_qpc].
    repeat split.
    + rewrite (sample_result p0 q1 info1 Hs Ha1 Hb1). cbn [snd].
      rewrite Hsrc1, Hd0. reflexivity.
    + rewrite (sample_result p0 q1 info1 Hs Ha1 Hb1). cbn [snd].
      rewrite Hsrc1, Hd0. reflexivity.
  - subst p2. rewrite (sample_result p1 q2 info2 Hs1 Ha2 Hb2).
    cbn [fst vsync_duration_qpc]. rewrite Hsrc2, Hsqt2. reflexivity.
  - rewrite (sample_result p1 q2 info2 Hs1 Ha2 Hb2). cbn [snd].
    rewrite Hsrc2, Hsqt2.
    change (nonzero 2 && nonzero 20000) with true. cbv iota.
    change (Z.quot 20000 2) with 10000.
    change (nonzero 10000) with true. cbn [andb].
    assert (Hq : forall p', perf_freq p' = 10000000 ->
                            qpc_to_us p' 10000 = 1000).
    { intros p' E. unfold qpc_to_us. rewrite E. reflexivity. }
    rewrite Hq by (rewrite Hp1; reflexivity).
    split_ifs; reflexivity.
Qed.

Lemma two_samples_at_100Hz_witness :
  vsync_duration_qpc
    (fst (d3d11_get_vsync
            (fst (d3d11_get_vsync clock_10MHz
                    (answer S_OK 1 (statistics 0 0 100 1000000)) unset_info))
            (answer S_OK 3 (statistics 1 100 102 1020000)) unset_info))
  = 10000 /\
  vsync_duration
    (snd (d3d11_get_vsync
            (fst (d3d11_get_vsync clock_10MHz
                    (answer S_OK 1 (statistics 0 0 100 1000000)) unset_info))
            (answer S_OK 3 (statistics 1 100 102 1020000)) unset_info))
  = 1000.
Proof.
  pose proof (two_samples_at_100Hz clock_10MHz
                (answer S_OK 1 (statistics 0 0 100 1000000))
                (answer S_OK 3 (statistics 1 100 102 1020000))
                unset_info unset_info
                eq_refl eq_refl eq_refl eq_refl eq_refl eq_refl eq_refl
                eq_refl eq_refl eq_refl eq_refl eq_refl eq_refl) as H.
  cbv zeta in H. destruct H as (_ & _ & _ & Hd & Hv). split; assumption.
Defined.

(** ** Adapter option *)

Section ValidateAdapterFacts.

Variable list_or_verify : bstr -> bool -> bool * string.

Lemma validate_adapter_help (param : bstr) :
  bstr_equals0 param "help" = true ->
  d3d11_validate_adapter list_or_verify param
  = (M_OPT_EXIT,
     [ListOrVerify bstr0_NULL true;
      MpInfo ("Available D3D11 adapters:" ++ nl ++
              snd (list_or_verify bstr0_NULL true))]).
Proof.
  intros Hh. unfold d3d11_validate_adapter. rewrite Hh.
  assert (He : bstr_equals0 param EmptyString = false).
  { unfold bstr_equals0 in *. apply String.eqb_eq in Hh. now rewrite Hh. }
  rewrite He. now destruct (list_or_verify bstr0_NULL true).
Qed.

Lemma validate_adapter_name (param : bstr) :
  bstr_equals0 param EmptyString = false ->
  bstr_equals0 param "help" = false ->
  d3d11_validate_adapter list_or_verify param
  = if fst (list_or_verify param false)
    then (0, [ListOrVerify param false])
    else (M_OPT_INVALID,
          [ListOrVerify param false;
           MpErr ("No adapter matching '" ++ bstr_text param ++ "'!" ++ nl)]).
Proof.
  intros He Hh. unfold d3d11_validate_adapter. rewrite He, Hh.
  now destruct (list_or_verify param false) as [[|] listing].
Qed.

End ValidateAdapterFacts.

(** Whatever the enumeration answers, the value list never ends in the
    show-help-and-exit status and never has the enumeration printed. *)
Lemma validate_adapter_list_never_exits
    (list_or_verify : bstr -> bool -> bool * string) :
  fst (d3d11_validate_adapter list_or_verify (bstr0 "list")) <> M_OPT_EXIT /\
  forall text,
    ~ In (MpInfo text)
         (snd (d3d11_validate_adapter list_or_verify (bstr0 "list"))).
Proof.
  rewrite validate_adapter_name by reflexivity.
  destruct (fst (list_or_verify (bstr0 "list") false)); split;
    try discriminate; intros text Hin; cbn in Hin;
    intuition discriminate.
Qed.

(** C9 (as stated, refuted): the value list is no special value: it is
    looked up as an adapter name, and with no adapter of that name the
    status is the invalid-value one, with no enumeration printed. *)
Lemma validate_adapter_list_is_a_name :
  d3d11_validate_adapter (enumerate_adapters two_adapters) (bstr0 "list")
  = (M_OPT_INVALID,
     [ListOrVerify (bstr0 "list") false;
      MpErr ("No adapter matching 'list'!" ++ nl)]) /\
  M_OPT_INVALID <> M_OPT_EXIT.
Proof. split; [reflexivity | discriminate]. Qed.

(** C9 (amended): the validator returns 0 for a parameter other than help
    that matches an available adapter, the show-help-and-exit status for
    the value help, after asking for the adapter listing and printing it,
    and the invalid-value status, after an error line, for a non-empty
    parameter other than help that matches no adapter. *)
Theorem validate_adapter_status
    (list_or_verify : bstr -> bool -> bool * string) (param : bstr) :
  (bstr_equals0 param "help" = true ->
   d3d11_validate_adapter list_or_verify param
   = (M_OPT_EXIT,
      [ListOrVerify bstr0_NULL true;
       MpInfo ("Available D3D11 adapters:" ++ nl ++
               snd (list_or_verify bstr0_NULL true))])) /\
  (bstr_equals0 param EmptyString = false ->
   bstr_equals0 param "help" = false ->
   fst (list_or_verify param false) = true ->
   d3d11_validate_adapter list_or_verify param
   = (0, [ListOrVerify param false])) /\
  (bstr_equals0 param EmptyString = false ->
   bstr_equals0 param "help" = false ->
   fst (list_or_verify param false) = false ->
   d3d11_validate_adapter list_or_verify param
   = (M_OPT_INVALID,
      [ListOrVerify param false;
       MpErr ("No adapter matching '" ++ bstr_text param ++ "'!" ++ nl)])).
Proof.
  split; [|split].
  - apply validate_adapter_help.
  - intros He Hh Hm. rewrite validate_adapter_name by assumption.
    now rewrite Hm.
  - intros He Hh Hm. rewrite validate_adapter_name by assumption.
    now rewrite Hm.
Qed.

Lemma validate_adapter_status_witness :
  fst (d3d11_validate_adapter (enumerate_adapters two_adapters) (bstr0 "help"))
  = M_OPT_EXIT /\
  d3d11_validate_adapter (enumerate_adapters two_adapters) (bstr0 "Intel")
  = (0, [ListOrVerify (bstr0 "Intel") false]) /\
  fst (d3d11_validate_adapter (enumerate_adapters two_adapters) (bstr0 "AMD"))
  = M_OPT_INVALID.
Proof.
  split; [|split].
  - destruct (validate_adapter_status (enumerate_adapters two_adapters)
                (bstr0 "help")) as (H & _).
    rewrite H; reflexivity.
  - destruct (validate_adapter_status (enumerate_adapters two_adapters)
                (bstr0 "Intel")) as (_ & H & _).
    apply H; reflexivity.
  - destruct (validate_adapter_status (enumerate_adapters two_adapters)
                (bstr0 "AMD")) as (_ & _ & H).
    rewrite H; reflexivity.
Defined.

(** C10: for an empty parameter the validator returns 0 with no effect at
    all: the enumeration is not called, whatever it would answer, and
    nothing is printed. *)
Theorem validate_adapter_empty
    (list_or_verify : bstr -> bool -> bool * string) (param : bstr) :
  bstr_equals0 param EmptyString = true ->
  d3d11_validate_adapter list_or_verify param = (0, []).
Proof.
  intros He. unfold d3d11_validate_adapter. now rewrite He.
Qed.

Lemma validate_adapter_empty_witness :
  d3d11_validate_adapter (enumerate_adapters two_adapters) (bstr0 EmptyString)
  = (0, []) /\
  d3d11_validate_adapter (enumerate_adapters two_adapters) bstr0_NULL
  = (0, []).
Proof.
  split; apply validate_adapter_empty; reflexivity.
Defined.

(** * Further properties *)

(** ** Clock conversion beyond the 100 years *)

(** X1: [qpc_to_us_exact_from_1MHz], at a concrete input. *)
Lemma qpc_to_us_exact_from_1MHz_witness :
  qpc_to_us clock_10MHz INT64_MAX = INT64_MAX * 1000000 / 10000000.
Proof.
  apply (qpc_to_us_exact_from_1MHz clock_10MHz INT64_MAX);
    vm_compute; intuition congruence.
Defined.

Lemma qpc_to_us_le (p : priv) (t1 t2 : Z) :
  0 < perf_freq p ->
  perf_freq p * 1000000 <= INT64_MAX ->
  0 <= t1 <= t2 ->
  t2 <= INT64_MAX ->
  t2 * 1000000 / perf_freq p <= INT64_MAX ->
  qpc_to_us p t1 <= qpc_to_us p t2.
Proof.
  intros Hf Hm Ht Hmax Hfit.
  assert (Hle : t1 * 1000000 / perf_freq p <= t2 * 1000000 / perf_freq p).
  { apply Z.div_le_mono; lia. }
  destruct (qpc_to_us_bounded p Hf t1) as [_ E1]; try lia.
  destruct (qpc_to_us_bounded p Hf t2) as [_ E2]; try lia.
Qed.

(** X2: wherever the conversion of the later count does not overflow, a later
    count never converts to an earlier time. *)
Theorem qpc_to_us_monotone (p : priv) (t1 t2 : Z) :
  0 < perf_freq p ->
  perf_freq p * 1000000 <= INT64_MAX ->
  0 <= t1 <= t2 ->
  t2 <= INT64_MAX ->
  t2 * 1000000 / perf_freq p <= INT64_MAX ->
  qpc_to_us p t1 <= qpc_to_us p t2.
Proof.
  intros Hf Hm Ht Hmax Hfit.
  destruct (qpc_to_us_bounded p Hf t1) as [_ E1]; try lia.
  { assert (t1 * 1000000 / perf_freq p <= t2 * 1000000 / perf_freq p)
      by (apply Z.div_le_mono; lia).
    lia. }
  destruct (qpc_to_us_bounded p Hf t2) as [_ E2]; try lia.
  rewrite E1, E2. apply Z.div_le_mono; lia.
Qed.

Lemma qpc_to_us_monotone_witness :
  qpc_to_us clock_10MHz 1005000 <= qpc_to_us clock_10MHz 1030000.
Proof.
  apply qpc_to_us_monotone; vm_compute; intuition congruence.
Defined.

(** X3: a negative count converts to the negated conversion of its absolute
    value: the division of the code truncates toward zero. *)
Theorem qpc_to_us_negative (p : priv) (t : Z) :
  0 < perf_freq p ->
  perf_freq p * 1000000 <= INT64_MAX ->
  0 <= t <= INT64_MAX ->
  t * 1000000 / perf_freq p <= INT64_MAX ->
  qpc_to_us p (- t) = - (t * 1000000 / perf_freq p) /\
  qpc_to_us p (- t) = - qpc_to_us p t.
Proof.
  intros Hf Hm Ht Hfit.
  destruct (qpc_to_us_bounded p Hf t) as [_ E]; try lia.
  rewrite E. rewrite <- (split_exact p Hf t) in *.
  assert (Hgoal : qpc_to_us p (- t)
                  = - (t / perf_freq p * 1000000 +
                       t mod perf_freq p * 1000000 / perf_freq p)).
  { destruct (qpc_split p Hf t) as [Eq Er]; [lia|].
    pose proof (Z.mod_pos_bound t (perf_freq p) Hf) as Hr.
    assert (Hq0 : 0 <= t / perf_freq p) by (apply Z.div_pos; lia).
    assert (Hp0 : 0 <= t mod perf_freq p * 1000000 / perf_freq p)
      by (apply Z.div_pos; lia).
    assert (Hqle : t / perf_freq p <= t) by (apply Z.div_le_upper_bound; nia).
    assert (Hi : forall z, - INT64_MAX <= z <= INT64_MAX -> to_int64 z = z).
    { intros z Hz. apply to_int64_small.
      unfold is_int64, INT64_MIN, INT64_MAX in *. lia. }
    unfold qpc_to_us.
    rewrite Z.quot_opp_l, Z.rem_opp_l, Eq, Er by lia.
    rewrite (Hi (- (t / perf_freq p))) by lia.
    rewrite !Z.mul_opp_l.
    rewrite (Hi (- (t / perf_freq p * 1000000))) by lia.
    rewrite (Hi (- (t mod perf_freq p * 1000000))) by lia.
    rewrite Z.quot_opp_l by lia.
    rewrite (Z.quot_div_nonneg (t mod perf_freq p * 1000000)) by lia.
    rewrite (Hi (- (t mod perf_freq p * 1000000 / perf_freq p))) by lia.
    rewrite Hi by lia.
    lia. }
  split; exact Hgoal.
Qed.

Lemma qpc_to_us_negative_witness :
  qpc_to_us clock_10MHz (- 15) = - 1 /\
  qpc_to_us clock_10MHz (- 15) = - qpc_to_us clock_10MHz 15.
Proof.
  apply (qpc_to_us_negative clock_10MHz 15); vm_compute; intuition congruence.
Defined.

(** ** The estimate over any run of calls *)

Lemma src_passed_range (p : priv) (st : DXGI_FRAME_STATISTICS) :
  is_unsigned (src_passed p st).
Proof.
  unfold src_passed. destruct (_ && _).
  - apply to_unsigned_range.
  - unfold is_unsigned, UINT_MOD. lia.
Qed.

Lemma sqt_passed_range (p : priv) (st : DXGI_FRAME_STATISTICS) :
  is_unsigned (sqt_passed p st).
Proof.
  unfold sqt_passed. destruct (_ && _).
  - apply to_unsigned_range.
  - unfold is_unsigned, UINT_MOD. lia.
Qed.

Lemma get_vsync_estimate_in_range
    (p : priv) (q : vsync_query) (info : vo_vsync_info) :
  estimate_in_range p ->
  estimate_in_range (fst (d3d11_get_vsync p q info)).
Proof.
  intros Hp. unfold estimate_in_range in *.
  destruct (get_vsync_estimate p q info)
    as [E | (_ & _ & _ & Ha & Hb & E)]; rewrite E; [exact Hp|].
  apply src_passed_pos in Ha.
  pose proof (sqt_passed_range p (stats q)) as Hs. unfold is_unsigned in Hs.
  rewrite Z.quot_div_nonneg by lia. split.
  - apply Z.div_pos; lia.
  - apply Z.div_lt_upper_bound; nia.
Qed.

Lemma run_call_estimate_in_range (p : priv) (c : call) :
  estimate_in_range p -> estimate_in_range (run_call p c).
Proof.
  intros Hp. destruct c as [q info | pc | hr tex | | | ]; cbn [run_call];
    try exact Hp.
  - now apply get_vsync_estimate_in_range.
  - unfold resize. now destruct (FAILED hr).
Qed.

(** X4: from [d3d11_init] on, through any calls in any order and whatever the
    platform answers, the estimated period is never negative and always
    fits 32 bits. *)
Theorem estimate_always_in_range
    (o : d3d11_opts) (freq : Z) (cs : list call) :
  0 <= vsync_duration_qpc (run_calls (priv_init o freq) cs) < 2 ^ 32.
Proof.
  change (estimate_in_range (run_calls (priv_init o freq) cs)).
  assert (H0 : estimate_in_range (priv_init o freq)).
  { unfold estimate_in_range, UINT_MOD. cbn. lia. }
  revert H0. generalize (priv_init o freq) as p.
  unfold run_calls. induction cs as [| c cs IH]; intros p Hp; [exact Hp|].
  cbn [fold_left]. apply IH. now apply run_call_estimate_in_range.
Qed.

(** X5: a published vsync duration is exact: with an estimate that fits 32
    bits and a frequency whose millionfold fits 64 bits, the duration
    written is the floor of [estimate * 1000000 / perf_freq], with no
    overflow on the way. *)
Theorem published_duration_exact
    (p : priv) (q : vsync_query) (info : vo_vsync_info) :
  sync_interval (opts p) = 1 ->
  FAILED (hr_last_present_count q) = false ->
  FAILED (hr_frame_statistics q) = false ->
  estimate_in_range p ->
  0 < perf_freq p ->
  perf_freq p * 1000000 <= INT64_MAX ->
  vsync_duration_qpc (fst (d3d11_get_vsync p q info)) <> 0 ->
  vsync_duration (snd (d3d11_get_vsync p q info))
  = vsync_duration_qpc (fst (d3d11_get_vsync p q info)) * 1000000
    / perf_freq p /\
  qpc_to_us_checked p (vsync_duration_qpc (fst (d3d11_get_vsync p q info)))
  = Some (vsync_duration (snd (d3d11_get_vsync p q info))).
Proof.
  intros Hs H1 H2 Hr Hf Hm Hne.
  pose proof (get_vsync_estimate_in_range p q info Hr) as Hr'.
  unfold estimate_in_range, UINT_MOD in Hr'.
  revert Hne Hr'. rewrite (sample_result p q info Hs H1 H2).
  cbn [fst snd vsync_duration_qpc]. intros Hne Hr'.
  match goal with
  | |- context [nonzero ?x && nonzero (PresentCount _)] =>
      set (period := x) in *
  end.
  apply nonzero_true in Hne.
  destruct (qpc_to_us_bounded p Hf period) as [Ec Ew].
  { unfold INT64_MAX. lia. }
  { exact Hm. }
  { assert (period * 1000000 / perf_freq p <= period * 1000000).
    { apply Z.div_le_upper_bound; nia. }
    unfold INT64_MAX. lia. }
  rewrite Hne. cbn [andb].
  split_ifs;
    cbn [vsync_duration set_last_queue_display_time set_vsync_duration];
    rewrite (qpc_to_us_same_freq _ p period) by reflexivity;
    now rewrite Ew, Ec.
Qed.

Lemma published_duration_exact_witness :
  vsync_duration
    (snd (d3d11_get_vsync running
            (answer S_OK 7 (statistics 5 101 103 1025000)) unset_info))
  = 833.
Proof.
  assert (Hr : estimate_in_range running) by (vm_compute; intuition congruence).
  assert (Hf : 0 < perf_freq running) by reflexivity.
  assert (Hm : perf_freq running * 1000000 <= INT64_MAX)
    by (vm_compute; congruence).
  assert (Hne : vsync_duration_qpc
                  (fst (d3d11_get_vsync running
                          (answer S_OK 7 (statistics 5 101 103 1025000))
                          unset_info)) <> 0)
    by (vm_compute; congruence).
  destruct (published_duration_exact running
              (answer S_OK 7 (statistics 5 101 103 1025000)) unset_info
              eq_refl eq_refl eq_refl Hr Hf Hm Hne) as [E _].
  rewrite E. reflexivity.
Defined.

(** ** What a call publishes *)

(** X6: while the estimate a call leaves is zero, the call publishes neither a
    vsync duration nor a display time. *)
Theorem no_estimate_nothing_published
    (p : priv) (q : vsync_query) (info : vo_vsync_info) :
  vsync_duration_qpc (fst (d3d11_get_vsync p q info)) = 0 ->
  vsync_duration (snd (d3d11_get_vsync p q info)) = vsync_duration info /\
  last_queue_display_time (snd (d3d11_get_vsync p q info))
  = last_queue_display_time info.
Proof.
  destruct (Z.eq_dec (sync_interval (opts p)) 1) as [Hs | Hs].
  2: { now rewrite get_vsync_other_interval. }
  destruct (FAILED (hr_last_present_count q)) eqn:H1.
  { now rewrite get_vsync_no_present_count. }
  destruct (FAILED (hr_frame_statistics q)) eqn:H2.
  { intros _. destruct (get_vsync_no_sample_info p q info) as [Hi _];
      [tauto | now rewrite Hi]. }
  rewrite (sample_result p q info Hs H1 H2).
  cbn [fst snd vsync_duration_qpc]. intros E.
  apply nonzero_false in E. rewrite E. cbn [andb]. split; reflexivity.
Qed.

Lemma no_estimate_nothing_published_witness :
  vsync_duration
    (snd (d3d11_get_vsync clock_10MHz
            (answer S_OK 1 (statistics 1 100 100 1000000)) unset_info))
  = -1 /\
  last_queue_display_time
    (snd (d3d11_get_vsync clock_10MHz
            (answer S_OK 1 (statistics 1 100 100 1000000)) unset_info))
  = -1.
Proof.
  apply (no_estimate_nothing_published clock_10MHz
           (answer S_OK 1 (statistics 1 100 100 1000000)) unset_info).
  reflexivity.
Defined.

(** ** Calls one after the other *)

(** X7: asking again with the same answers of the platform changes nothing:
    the second call leaves the state of the first and hands back the same
    record. *)
Theorem get_vsync_repeated
    (p : priv) (q : vsync_query) (info : vo_vsync_info) :
  d3d11_get_vsync (fst (d3d11_get_vsync p q info)) q info
  = d3d11_get_vsync p q info.
Proof.
  destruct (Z.eq_dec (sync_interval (opts p)) 1) as [Hs | Hs].
  2: { rewrite (get_vsync_other_interval p q info Hs). cbn [fst].
       now apply get_vsync_other_interval. }
  destruct (FAILED (hr_last_present_count q)) eqn:H1.
  { rewrite (get_vsync_no_present_count p q info H1). cbn [fst].
    now apply get_vsync_no_present_count. }
  destruct (FAILED (hr_frame_statistics q)) eqn:H2.
  { rewrite (get_vsync_no_statistics p q info Hs H1 H2). cbn [fst].
    destruct (hr_frame_statistics q =? DXGI_ERROR_FRAME_STATISTICS_DISJOINT)
      eqn:E.
    - rewrite get_vsync_no_statistics by assumption. now rewrite E.
    - rewrite get_vsync_no_statistics by assumption. now rewrite E. }
  rewrite (sample_result p q info Hs H1 H2). cbn [fst].
  match goal with
  | |- d3d11_get_vsync ?x _ _ = _ => set (p1 := x)
  end.
  assert (Hsrc : src_passed p1 (stats q) = 0).
  { apply (src_passed_stays (SyncRefreshCount (stats q))); [now left | reflexivity]. }
  rewrite (sample_result p1 q info Hs H1 H2).
  rewrite Hsrc. cbn [nonzero Z.eqb negb andb]. reflexivity.
Qed.

(** X8: after a disjoint timeline the next sample only stores its counters:
    the estimate of before the gap is kept, and is the one published. *)
Theorem resync_after_disjoint
    (p : priv) (qd q : vsync_query) (info info' : vo_vsync_info) :
  sync_interval (opts p) = 1 ->
  FAILED (hr_last_present_count qd) = false ->
  hr_frame_statistics qd = DXGI_ERROR_FRAME_STATISTICS_DISJOINT ->
  FAILED (hr_last_present_count q) = false ->
  FAILED (hr_frame_statistics q) = false ->
  fst (d3d11_get_vsync (fst (d3d11_get_vsync p qd info)) q info')
  = {| opts := opts p; backbuffer := backbuffer p; perf_freq := perf_freq p;
       last_sync_refresh_count := SyncRefreshCount (stats q);
       last_sync_qpc_time := SyncQPCTime (stats q);
       vsync_duration_qpc := vsync_duration_qpc p;
       last_submit_qpc := last_submit_qpc p |} /\
  vsync_duration
    (snd (d3d11_get_vsync (fst (d3d11_get_vsync p qd info)) q info'))
  = if nonzero (vsync_duration_qpc p)
    then qpc_to_us p (vsync_duration_qpc p)
    else vsync_duration info'.
Proof.
  intros Hs Hd1 Hd2 H1 H2.
  rewrite (get_vsync_forgets p qd info Hs Hd1 Hd2). cbn [fst].
  assert (Hs' : sync_interval (opts (forget_last_sync p)) = 1) by exact Hs.
  assert (Hsrc : src_passed (forget_last_sync p) (stats q) = 0).
  { apply (src_passed_stays (SyncRefreshCount (stats q)));
      [now right | reflexivity]. }
  rewrite (sample_result (forget_last_sync p) q info' Hs' H1 H2).
  rewrite Hsrc. cbn [nonzero Z.eqb negb andb fst snd]. split.
  - reflexivity.
  - cbn [forget_last_sync set_last_sync_qpc_time set_last_sync_refresh_count
         vsync_duration_qpc].
    fold (nonzero (vsync_duration_qpc p)).
    destruct (nonzero (vsync_duration_qpc p)); cbn [andb];
      split_ifs; reflexivity.
Qed.

Lemma resync_after_disjoint_witness :
  vsync_duration_qpc
    (fst (d3d11_get_vsync
            (fst (d3d11_get_vsync running
                    (answer DXGI_ERROR_FRAME_STATISTICS_DISJOINT 7
                       (statistics 0 0 0 0)) unset_info))
            (answer S_OK 8 (statistics 6 500 501 9000000)) unset_info))
  = 10000 /\
  vsync_duration
    (snd (d3d11_get_vsync
            (fst (d3d11_get_vsync running
                    (answer DXGI_ERROR_FRAME_STATISTICS_DISJOINT 7
                       (statistics 0 0 0 0)) unset_info))
            (answer S_OK 8 (statistics 6 500 501 9000000)) unset_info))
  = 1000.
Proof.
  destruct (resync_after_disjoint running
              (answer DXGI_ERROR_FRAME_STATISTICS_DISJOINT 7
                 (statistics 0 0 0 0))
              (answer S_OK 8 (statistics 6 500 501 9000000))
              unset_info unset_info eq_refl eq_refl eq_refl eq_refl eq_refl)
    as [Ep Ev].
  split; [now rewrite Ep | now rewrite Ev].
Defined.

(** ** Limits of the 32-bit differences *)

Lemma to_unsigned_to_int64 (z : Z) : to_unsigned (to_int64 z) = to_unsigned z.
Proof.
  unfold to_unsigned, to_int64, UINT_MOD, INT64_MOD.
  rewrite (Z.mod_eq (z + 2 ^ 63) (2 ^ 64)) by lia.
  replace (z + 2 ^ 63 - 2 ^ 64 * ((z + 2 ^ 63) / 2 ^ 64) - 2 ^ 63)
    with (z + (- (2 ^ 32 * ((z + 2 ^ 63) / 2 ^ 64))) * 2 ^ 32) by ring.
  apply Z.mod_add. lia.
Qed.

(** X9: the ticks passed are kept in 32 bits: a sample whose timestamp lies a
    whole multiple of 2^32 ticks from the stored one counts as no time
    passed, and the call keeps the estimate whatever the refresh counter
    did. *)
Theorem ticks_passed_wrap_at_32_bits
    (p : priv) (q : vsync_query) (info : vo_vsync_info) (k : Z) :
  SyncQPCTime (stats q) = last_sync_qpc_time p + k * 2 ^ 32 ->
  sqt_passed p (stats q) = 0 /\
  vsync_duration_qpc (fst (d3d11_get_vsync p q info)) = vsync_duration_qpc p.
Proof.
  intros Hk.
  assert (H0 : sqt_passed p (stats q) = 0).
  { unfold sqt_passed. destruct (_ && _); [|reflexivity].
    rewrite to_unsigned_to_int64, Hk.
    replace (last_sync_qpc_time p + k * 2 ^ 32 - last_sync_qpc_time p)
      with (k * 2 ^ 32) by ring.
    unfold to_unsigned, UINT_MOD. apply Z.mod_mul. lia. }
  split; [exact H0|].
  destruct (get_vsync_estimate p q info) as [E | (_ & _ & _ & _ & Hb & _)];
    [exact E|].
  rewrite H0 in Hb. discriminate.
Qed.

Lemma ticks_passed_wrap_at_32_bits_witness :
  vsync_duration_qpc
    (fst (d3d11_get_vsync running
            (answer S_OK 7 (statistics 5 101 42950 4295967296)) unset_info))
  = 10000.
Proof.
  apply (ticks_passed_wrap_at_32_bits running
           (answer S_OK 7 (statistics 5 101 42950 4295967296)) unset_info 1).
  reflexivity.
Defined.

(** ** What stays over any run of calls *)

Lemma run_call_config (p : priv) (c : call) :
  opts (run_call p c) = opts p /\ perf_freq (run_call p c) = perf_freq p.
Proof.
  destruct c as [q info | pc | hr tex | | | ]; cbn [run_call];
    try (split; reflexivity).
  - destruct (get_vsync_frame p q info) as (Ho & _ & Hf & _). now split.
  - unfold resize. now destruct (FAILED hr).
Qed.

(** X10: the options and the counter frequency stored at [d3d11_init] are
    never changed by any call. *)
Theorem config_never_changes (p : priv) (cs : list call) :
  opts (run_calls p cs) = opts p /\
  perf_freq (run_calls p cs) = perf_freq p.
Proof.
  revert p. unfold run_calls.
  induction cs as [| c cs IH]; intros p; [now split|].
  cbn [fold_left]. destruct (IH (run_call p c)) as [Ho Hf].
  destruct (run_call_config p c) as [Ho' Hf']. split; congruence.
Qed.

Lemma run_call_other_interval (p : priv) (c : call) :
  sync_interval (opts p) <> 1 ->
  last_sync_refresh_count (run_call p c) = last_sync_refresh_count p /\
  last_sync_qpc_time (run_call p c) = last_sync_qpc_time p /\
  vsync_duration_qpc (run_call p c) = vsync_duration_qpc p.
Proof.
  intros Hs. destruct c as [q info | pc | hr tex | | | ]; cbn [run_call];
    try (repeat split; fail).
  - now rewrite (get_vsync_other_interval p q info Hs).
  - unfold resize. now destruct (FAILED hr).
Qed.

(** X11: with a sync interval other than 1 the estimator never wakes: over any
    run of calls the stored counters and the estimate stay as they were. *)
Theorem other_interval_estimator_dormant (p : priv) (cs : list call) :
  sync_interval (opts p) <> 1 ->
  last_sync_refresh_count (run_calls p cs) = last_sync_refresh_count p /\
  last_sync_qpc_time (run_calls p cs) = last_sync_qpc_time p /\
  vsync_duration_qpc (run_calls p cs) = vsync_duration_qpc p.
Proof.
  revert p. unfold run_calls.
  induction cs as [| c cs IH]; intros p Hs; [now repeat split|].
  cbn [fold_left].
  destruct (run_call_config p c) as [Ho _].
  destruct (run_call_other_interval p c Hs) as (Ha & Hb & Hc).
  destruct (IH (run_call p c)) as (Ha' & Hb' & Hc'); [now rewrite Ho|].
  repeat split; congruence.
Qed.

Lemma other_interval_estimator_dormant_witness :
  vsync_duration_qpc
    (run_calls running_interval_2
       [CallSwapBuffers 1040000;
        CallGetVsync (answer S_OK 8 (statistics 6 102 103 1030000)) unset_info;
        CallResize S_OK (Some 1%nat);
        CallGetVsync (answer S_OK 9 (statistics 7 103 105 1050000)) unset_info])
  = 10000.
Proof.
  apply (other_interval_estimator_dormant running_interval_2).
  vm_compute. discriminate.
Defined.

(** ** The published display time *)

(** X12: a display time that a call publishes is never earlier than the last
    submit, both taken on the wall clock: where the conversions and the
    final sum stay in range, the value written is at least
    [mp_time_us() + (qpc_to_us(last_submit_qpc) - qpc_us_now())]. *)
Theorem display_time_not_before_submit
    (p : priv) (q : vsync_query) (info : vo_vsync_info) :
  sync_interval (opts p) = 1 ->
  FAILED (hr_last_present_count q) = false ->
  FAILED (hr_frame_statistics q) = false ->
  0 < perf_freq p ->
  perf_freq p * 1000000 <= INT64_MAX ->
  0 <= last_submit_qpc p ->
  last_queue_display_time_qpc (fst (d3d11_get_vsync p q info))
    (submit_count q) (stats q) * 1000000 / perf_freq p <= INT64_MAX ->
  is_int64
    (qpc_to_us p
       (last_queue_display_time_qpc (fst (d3d11_get_vsync p q info))
          (submit_count q) (stats q)) -
     qpc_us_now p (perf_count_now q)) ->
  is_int64
    (mp_time_us q +
     (qpc_to_us p
        (last_queue_display_time_qpc (fst (d3d11_get_vsync p q info))
           (submit_count q) (stats q)) -
      qpc_us_now p (perf_count_now q))) ->
  last_queue_display_time (snd (d3d11_get_vsync p q info))
  <> last_queue_display_time info ->
  mp_time_us q +
  (qpc_to_us p (last_submit_qpc p) - qpc_us_now p (perf_count_now q))
  <= last_queue_display_time (snd (d3d11_get_vsync p q info)).
Proof.
  intros Hs H1 H2 Hf Hm Hls.
  rewrite (sample_result p q info Hs H1 H2). cbn [fst snd].
  match goal with
  | |- context [last_queue_display_time_qpc ?x _ _] => set (p' := x)
  end.
  set (lqdt := last_queue_display_time_qpc p' (submit_count q) (stats q)).
  intros Hfit Hd Hsum Hpub.
  assert (Hq : forall t, qpc_to_us p' t = qpc_to_us p t)
    by (intros t; now apply qpc_to_us_same_freq).
  unfold qpc_us_now in *.
  match type of Hpub with
  | context [if ?c && nonzero (SyncQPCTime (stats q)) then _ else _] =>
      destruct (c && nonzero (SyncQPCTime (stats q)))
  end.
  2: { exfalso. apply Hpub. split_ifs; reflexivity. }
  destruct (lqdt >=? last_submit_qpc p) eqn:Hge.
  2: { exfalso. apply Hpub. split_ifs; reflexivity. }
  cbn [last_queue_display_time set_last_queue_display_time].
  rewrite !Hq. rewrite (to_int64_small _ Hd), (to_int64_small _ Hsum).
  apply Z.geb_le in Hge.
  pose proof (to_int64_range
                (SyncQPCTime (stats q) +
                 to_int64 (queued_frames (submit_count q) (stats q) *
                           vsync_duration_qpc p'))) as Hr.
  fold (last_queue_display_time_qpc p' (submit_count q) (stats q)) in Hr.
  fold lqdt in Hr. unfold is_int64 in Hr.
  assert (Hmono : qpc_to_us p (last_submit_qpc p) <= qpc_to_us p lqdt).
  { apply qpc_to_us_le; lia. }
  lia.
Qed.

Lemma display_time_not_before_submit_witness :
  5000000 + (qpc_to_us running 1005000 - qpc_us_now running 1025000)
  <= last_queue_display_time
       (snd (d3d11_get_vsync running
               (answer S_OK 7 (statistics 5 101 102 1020000)) unset_info)).
Proof.
  apply (display_time_not_before_submit running
           (answer S_OK 7 (statistics 5 101 102 1020000)) unset_info);
    try reflexivity; vm_compute; intuition congruence.
Defined.

(** ** Frames and window events *)


Section ControlFacts.

Variable VO_EVENT_RESIZE : Z.
Variable VO_ERROR : Z.

(** X15: [d3d11_control] hands on the status of the window unless a resize was
    asked for and failed: without the resize bit nothing of the state
    changes, with it the status is [VO_ERROR] exactly when [ResizeBuffers]
    failed (and then no frame can start), and in every case the estimator
    state is left alone. *)
Theorem control_status
    (p : priv) (ret events : Z) (hr : HRESULT) (tex : option ra_tex) :
  (Z.land events VO_EVENT_RESIZE = 0 ->
   d3d11_control VO_EVENT_RESIZE VO_ERROR p ret events hr tex = (p, ret)) /\
  (Z.land events VO_EVENT_RESIZE <> 0 ->
   snd (d3d11_control VO_EVENT_RESIZE VO_ERROR p ret events hr tex)
   = (if FAILED hr then VO_ERROR else ret) /\
   d3d11_start_frame
     (fst (d3d11_control VO_EVENT_RESIZE VO_ERROR p ret events hr tex))
   = (if FAILED hr then None else tex)) /\
  last_sync_refresh_count
    (fst (d3d11_control VO_EVENT_RESIZE VO_ERROR p ret events hr tex))
  = last_sync_refresh_count p /\
  last_sync_qpc_time
    (fst (d3d11_control VO_EVENT_RESIZE VO_ERROR p ret events hr tex))
  = last_sync_qpc_time p /\
  vsync_duration_qpc
    (fst (d3d11_control VO_EVENT_RESIZE VO_ERROR p ret events hr tex))
  = vsync_duration_qpc p /\
  last_submit_qpc
    (fst (d3d11_control VO_EVENT_RESIZE VO_ERROR p ret events hr tex))
  = last_submit_qpc p.
Proof.
  unfold d3d11_control, resize, d3d11_start_frame.
  split; [|split].
  - intros E. apply nonzero_false in E. now rewrite E.
  - intros E. apply nonzero_true in E. rewrite E.
    destruct (FAILED hr); split; reflexivity.
  - destruct (nonzero (Z.land events VO_EVENT_RESIZE)); [|repeat split].
    destruct (FAILED hr); repeat split.
Qed.

End ControlFacts.

Lemma control_status_witness :
  d3d11_control 2 (-1) running 1 5 E_FAIL None = (running, 1) /\
  snd (d3d11_control 2 (-1) running 1 3 E_FAIL None) = -1.
Proof.
  destruct (control_status 2 (-1) running 1 5 E_FAIL None) as (Hno & _).
  destruct (control_status 2 (-1) running 1 3 E_FAIL None)
    as (_ & Hyes & _).
  split.
  - apply Hno. reflexivity.
  - destruct Hyes as [E _]; [vm_compute; discriminate | exact E].
Defined.

(** ** Start and end of the context *)

Ltac init_cases a :=
  destruct a as [freq dev_ok spirv_ok ra_ok w32_ok sc_ok hr wrapped];
  unfold d3d11_init, init_error, d3d11_uninit, get_backbuffer,
    get_backbuffer_calls;
  cbn -[to_int FAILED];
  destruct dev_ok, spirv_ok, ra_ok, w32_ok, sc_ok;
  cbn -[to_int FAILED];
  try (destruct (FAILED hr) eqn:?; cbn -[to_int FAILED]);
  try (destruct wrapped; cbn -[to_int FAILED]).

(** X16: [d3d11_init] returns true exactly when every step succeeded: the
    device, the shader compiler, the rendering abstraction, the window,
    the swapchain, [GetBuffer] and the wrapping of the buffer. It then
    holds all of them, with a zeroed estimator, the frequency read once
    and the wrapped buffer as backbuffer. *)
Theorem init_succeeds_iff (ctx : ra_ctx) (o : d3d11_opts) (a : init_answers) :
  (snd (fst (d3d11_init ctx o a)) = true <->
   create_present_device_ok a = true /\ spirv_compiler_init_ok a = true /\
   ra_d3d11_create_ok a = true /\ vo_w32_init_ok a = true /\
   create_swapchain_ok a = true /\ FAILED (GetBuffer_hr a) = false /\
   wrap_tex a <> None) /\
  (snd (fst (d3d11_init ctx o a)) = true ->
   ctx_priv (fst (fst (d3d11_init ctx o a)))
   = {| opts := o; backbuffer := wrap_tex a;
        perf_freq := QueryPerformanceFrequency a;
        last_sync_refresh_count := 0; last_sync_qpc_time := 0;
        vsync_duration_qpc := 0; last_submit_qpc := 0 |} /\
   ra (fst (fst (d3d11_init ctx o a))) = true /\
   device (fst (fst (d3d11_init ctx o a))) = true /\
   swapchain (fst (fst (d3d11_init ctx o a))) = true).
Proof.
  init_cases a; (split; [split|]);
    try (intros (? & ? & ? & ? & ? & ? & ?)); try intros ?;
    try discriminate; try congruence;
    repeat split; try reflexivity; try discriminate.
Qed.

(** X17: whatever step of [d3d11_init] fails, on a context that held nothing
    everything taken so far is given back exactly once and in an order the
    leak checker accepts: the swapchain before the device, the rendering
    abstraction last. Nothing is held afterwards and no frame can
    start. *)
Theorem init_failure_releases_everything
    (ctx : ra_ctx) (o : d3d11_opts) (a : init_answers) :
  ra ctx = false ->
  snd (fst (d3d11_init ctx o a)) = false ->
  track_all nothing_held (snd (d3d11_init ctx o a)) = Some nothing_held /\
  device (fst (fst (d3d11_init ctx o a))) = false /\
  swapchain (fst (fst (d3d11_init ctx o a))) = false /\
  d3d11_start_frame (ctx_priv (fst (fst (d3d11_init ctx o a)))) = None.
Proof.
  intros Hra. destruct ctx as [dbg depth w h r p dev sc].
  cbn in Hra. subst r.
  init_cases a; intros Hfail; try discriminate;
    unfold track_all, track; cbn -[to_int FAILED];
    repeat match goal with
           | H : FAILED _ = _ |- _ => rewrite H; cbn -[to_int FAILED]
           end;
    repeat split; reflexivity.
Qed.

Lemma init_failure_releases_everything_witness :
  track_all nothing_held
    (snd (d3d11_init (fresh_ctx false 3 1280 720) default_opts no_swapchain))
  = Some nothing_held.
Proof.
  apply (init_failure_releases_everything
           (fresh_ctx false 3 1280 720) default_opts no_swapchain);
    reflexivity.
Defined.

(** X18: a context that [d3d11_init] has started and [d3d11_uninit] ends has
    given back everything it took, exactly once and in an order the leak
    checker accepts: the backbuffer, the swapchain, the window, the
    device, the rendering abstraction. *)
Theorem init_then_uninit_balanced
    (ctx : ra_ctx) (o : d3d11_opts) (a : init_answers) :
  ra ctx = false ->
  snd (fst (d3d11_init ctx o a)) = true ->
  track_all nothing_held
    (snd (d3d11_init ctx o a) ++
     snd (d3d11_uninit (fst (fst (d3d11_init ctx o a)))))
  = Some nothing_held /\
  (exists tex,
      wrap_tex a = Some tex /\
      snd (d3d11_uninit (fst (fst (d3d11_init ctx o a))))
      = [ra_tex_free tex; IDXGISwapChain_Release; vo_w32_uninit;
         ID3D11Device_Release; ra_destroy]) /\
  d3d11_start_frame
    (ctx_priv (fst (d3d11_uninit (fst (fst (d3d11_init ctx o a)))))) = None.
Proof.
  intros Hra. destruct ctx as [dbg depth w h r p dev sc].
  cbn in Hra. subst r.
  init_cases a; intros Hok; try discriminate.
  unfold track_all, track; cbn -[to_int FAILED].
  repeat match goal with
         | H : FAILED _ = _ |- _ => rewrite H; cbn -[to_int FAILED]
         end.
  rewrite Nat.eqb_refl. repeat split; try reflexivity.
  eexists. split; reflexivity.
Qed.

Lemma init_then_uninit_balanced_witness :
  track_all nothing_held
    (snd (d3d11_init (fresh_ctx true 3 1280 720) default_opts all_fine) ++
     snd (d3d11_uninit
            (fst (fst (d3d11_init (fresh_ctx true 3 1280 720) default_opts
                         all_fine)))))
  = Some nothing_held.
Proof.
  apply (init_then_uninit_balanced
           (fresh_ctx true 3 1280 720) default_opts all_fine);
    reflexivity.
Defined.

(** ** The prediction in plain integers *)

(** X13: [prediction_exact], at a concrete input. *)
Lemma prediction_exact_witness :
  last_queue_display_time_qpc running 7 (statistics 5 101 102 1020000)
  = 1020000 + (7 - (5 + (102 - 101))) * 10000.
Proof.
  apply (prediction_exact running 7 (statistics 5 101 102 1020000));
    vm_compute; intuition congruence.
Defined.

(** ** Adapter option: status and output go together *)

(** X19: whatever the enumeration answers, the validator returns one of its
    three statuses, prints an error line exactly when it rejects, prints
    the listing exactly when it returns the show-help-and-exit status, and
    runs the enumeration at most once, before anything is printed. *)
Theorem validate_adapter_outcomes
    (list_or_verify : bstr -> bool -> bool * string) (param : bstr) :
  (fst (d3d11_validate_adapter list_or_verify param) = 0 \/
   fst (d3d11_validate_adapter list_or_verify param) = M_OPT_EXIT \/
   fst (d3d11_validate_adapter list_or_verify param) = M_OPT_INVALID) /\
  (fst (d3d11_validate_adapter list_or_verify param) = M_OPT_INVALID <->
   exists text,
     In (MpErr text) (snd (d3d11_validate_adapter list_or_verify param))) /\
  (fst (d3d11_validate_adapter list_or_verify param) = M_OPT_EXIT <->
   exists text,
     In (MpInfo text) (snd (d3d11_validate_adapter list_or_verify param))) /\
  (snd (d3d11_validate_adapter list_or_verify param) = [] \/
   exists name want_listing rest,
     snd (d3d11_validate_adapter list_or_verify param)
     = ListOrVerify name want_listing :: rest /\
     forall name' want', ~ In (ListOrVerify name' want') rest).
Proof.
  unfold d3d11_validate_adapter.
  destruct (bstr_equals0 param EmptyString).
  { cbn. repeat split; auto; try discriminate;
      intros [text []]. }
  destruct (bstr_equals0 param "help").
  - destruct (list_or_verify bstr0_NULL true) as [matched listing].
    cbn -[String.append]. repeat split; auto; try discriminate.
    + intros [text [H | [H | []]]]; discriminate.
    + intros _. eexists. right. left. reflexivity.
    + right. do 3 eexists. split; [reflexivity|].
      intros n w [H | []]. discriminate.
  - destruct (list_or_verify param false) as [[|] listing];
      cbn -[String.append]; repeat split; auto; try discriminate.
    + intros [text [H | []]]. discriminate.
    + intros [text [H | []]]. discriminate.
    + right. do 3 eexists. split; [reflexivity|]. intros n w [].
    + intros _. eexists. right. left. reflexivity.
    + intros [text [H | [H | []]]]; discriminate.
    + right. do 3 eexists. split; [reflexivity|].
      intros n w [H | []]. discriminate.
Qed.
